(** * Worksheet XML writer of bunspout: a shallow embedding

    The definitions below follow [src/xml/writer.ts] (the worksheet
    serializer): [columnIndexToLetter], [getCellReference],
    [serializeCell], [serializeRow], [generateColsXml],
    [generateSheetFormatPr] and [writeSheetXml]. *)

From Stdlib Require Import ZArith Ascii Lia.
From stdpp Require Import base decidable numbers list sorting strings pretty gmap.
From Equations Require Import Equations.

Local Open Scope Z_scope.
#[local] Set Warnings "-clear-no-such-hyp".

(** ** JavaScript values used by the writer *)

(** Integers (row numbers, column numbers, shared-string indices) are
    rendered by template literals in decimal. *)
Definition numToString (n : Z) : string := pretty n.

(** [String.fromCharCode] on a code unit below 256. *)
Definition fromCharCode (n : Z) : ascii := ascii_of_N (Z.to_N n).

(** ** Column letters *)

(** The [while (colIndex > 0)] loop of [columnIndexToLetter]; [%] is
    JavaScript's remainder and [Math.floor(_ / 26)] the floored
    quotient. *)
Equations? letterLoop (colIndex : Z) (result : string) : string
  by wf (Z.to_nat colIndex) lt :=
  letterLoop colIndex result with decide (0 < colIndex) => {
    | left _ =>
        letterLoop ((colIndex - 1) `div` 26)
          (String (fromCharCode (65 + (colIndex - 1) `rem` 26)) result);
    | right _ => result }.
Proof.
  assert ((colIndex - 1) `div` 26 < colIndex).
  { apply Z.div_lt_upper_bound; lia. }
  assert (0 <= (colIndex - 1) `div` 26) by (apply Z.div_pos; lia).
  lia.
Qed.

Definition columnIndexToLetter (colIndex : Z) : string :=
  letterLoop (colIndex + 1) "".

Definition getCellReference (rowIndex colIndex : Z) : string :=
  columnIndexToLetter colIndex +:+ numToString rowIndex.

(** ** Text fragments *)

(** The double-quote character, and a value between double quotes as
    in the attribute templates [ r="${...}"]. *)
Definition dq : string := String "034"%char "".
Definition quoted (s : string) : string := dq +:+ s +:+ dq.
(** The newline of the [\n] escapes. *)
Definition nl : string := String "010"%char "".

(** [Array.prototype.join] on strings. *)
Definition join (sep : string) (l : list string) : string := String.concat sep l.
Global Arguments join : simpl never.

(** Truthiness of a string: only the empty string is falsy. *)
Definition nonEmpty (s : string) : bool :=
  match s with EmptyString => false | _ => true end.

(** Truthiness of an optional boolean field such as [autoDetect?]. *)
Definition truthy (b : option bool) : bool :=
  match b with Some true => true | _ => false end.

Module Writer.

Section Model.

(** JavaScript numbers that are not known to be integers (cell
    payloads, column widths) stay abstract, with their rendering by
    [String(_)] / template literals. *)
Context {Number : Type}.
Variable Number_toString : Number -> string.

(** *** [src/types.ts] *)

Inductive CellValue :=
| VString (s : string)
| VNumber (n : Number)
| VDate (d : Number)
| VBoolean (b : bool)
| VNull
| VUndefined.

Inductive CellType := TString | TNumber | TDate | TBoolean.

Record Cell := { value : CellValue; type : option CellType }.

(** The tags ['s' | 'n' | 'b' | 'd' | 'e'] of [CellResolved]. *)
Inductive Tag := Ts | Tn | Tb | Td | Te.

Definition tagText (tag : Tag) : string :=
  match tag with Ts => "s" | Tn => "n" | Tb => "b" | Td => "d" | Te => "e" end.

(** [v: string | number]. *)
Inductive Payload := PStr (s : string) | PNum (n : Number).

Record CellResolved := { t : Tag; v : Payload }.

(** A slot of [cells: (Cell | undefined | null)[]]. *)
Inductive CellSlot := Present (c : Cell) | Null | Undefined.

Record Row := { cells : list CellSlot; rowIndex : option Z }.

(** [c !== undefined && c !== null] *)
Definition isPresent (c : CellSlot) : bool :=
  match c with Present _ => true | Null | Undefined => false end.

(** [String(resolved.v)] *)
Definition String_ (p : Payload) : string :=
  match p with PStr s => s | PNum n => Number_toString n end.

(** *** Collaborators that live outside [writer.ts] *)

(** [resolveCell] of [cell-resolver.ts] and [escapeXml] of
    [utils/xml.ts] are taken as they are. The casts [resolved.v as
    string] are erased at run time, so [escapeXml] and the
    shared-string resolver receive the payload unchanged. *)
Variable resolveCell : Cell -> CellResolved.
Variable escapeXml : Payload -> string.

(** Modelled from the spec: [ColumnWidthTracker] of
    [utils/column-widths.ts] is not part of the sources at hand.
    [updateColumnWidth] keeps, per column index, the running maximum
    of a rendered-width heuristic and does nothing on a tracker that
    was constructed disabled; [getAllWidths] returns the mapping
    accumulated so far. The heuristic and the maximum of two numbers
    are left abstract. *)
Variable calculateCellWidth : Cell -> Number.
Variable Number_max : Number -> Number -> Number.

Record ColumnWidthTracker := { enabled : bool; widths : gmap Z Number }.

Definition newColumnWidthTracker (enabled : bool) : ColumnWidthTracker :=
  {| enabled := enabled; widths := ∅ |}.

Definition updateColumnWidth (tr : ColumnWidthTracker) (colIndex : Z) (cell : Cell)
  : ColumnWidthTracker :=
  if enabled tr then
    let w := calculateCellWidth cell in
    {| enabled := true;
       widths := <[colIndex := match widths tr !! colIndex with
                               | Some old => Number_max old w
                               | None => w
                               end]> (widths tr) |}
  else tr.

Definition getAllWidths (tr : ColumnWidthTracker) : gmap Z Number := widths tr.

(** Modelled from the spec: [ColumnWidthDefinition] and
    [SheetColumnWidthOptions] of [xlsx/types.ts] are not part of the
    sources at hand; every field is optional, as [writer.ts] tests
    each of them against [undefined]. *)
Record ColumnRange := { from : Z; to : Z }.

Record ColumnWidthDefinition := {
  columnIndex : option Z;
  columnRange : option ColumnRange;
  width : option Number;
  autoDetect : option bool }.

Record SheetColumnWidthOptions := {
  autoDetectColumnWidth : option bool;
  columnWidths : option (list ColumnWidthDefinition);
  defaultColumnWidth : option Number }.

(** [WriteSheetXmlOptions] *)
Record WriteSheetXmlOptions := {
  getStringIndex : option (Payload -> Z);
  columnWidthOptions : option SheetColumnWidthOptions }.

(** *** [serializeCell] *)

Definition serializeCell (cell : Cell) (rowIndex colIndex : Z)
    (getStringIndex : option (Payload -> Z)) : string :=
  let resolved := resolveCell cell in
  let cellRef := getCellReference rowIndex colIndex in
  let styleAttr := " s=" +:+ quoted "0" in
  let refAttr := " r=" +:+ quoted cellRef in
  match t resolved, getStringIndex with
  | Ts, Some getIndex =>
      let index := getIndex (v resolved) in
      "<c" +:+ refAttr +:+ styleAttr +:+ " t=" +:+ quoted "s" +:+ "><v>"
        +:+ numToString index +:+ "</v></c>"
  | Ts, None =>
      let text := escapeXml (v resolved) in
      "<c" +:+ refAttr +:+ styleAttr +:+ " t=" +:+ quoted "inlineStr" +:+ "><is><t>"
        +:+ text +:+ "</t></is></c>"
  | tag, _ =>
      let typeAttr :=
        match tag with Tn => "" | _ => " t=" +:+ quoted (tagText tag) end in
      let value := String_ (v resolved) in
      "<c" +:+ refAttr +:+ styleAttr +:+ typeAttr +:+ "><v>" +:+ value +:+ "</v></c>"
  end.

(** *** [serializeRow] *)

(** [Array.prototype.findIndex], scanning from index [i]. *)
Fixpoint findIndexFrom {A} (p : A -> bool) (l : list A) (i : Z) : Z :=
  match l with
  | [] => -1
  | x :: l' => if p x then i else findIndexFrom p l' (i + 1)
  end.

Definition findIndex {A} (p : A -> bool) (l : list A) : Z := findIndexFrom p l 0.

(** The backward loop [for (let i = length - 1; i >= 0; i--)] that
    looks for the last present cell; [n] is [i + 1]. *)
Fixpoint lastColLoop (cells : list CellSlot) (n : nat) (lastCol : Z) : Z :=
  match n with
  | O => lastCol
  | S i =>
      match cells !! i with
      | Some (Present _) => Z.of_nat i + 1
      | _ => lastColLoop cells i lastCol
      end
  end.

(** The callback of [row.cells.map], run left to right from column
    [colIndex]; it returns the mapped array and the tracker after
    the calls to [updateColumnWidth]. *)
Fixpoint mapCells (cells : list CellSlot) (colIndex rowIndex : Z)
    (getStringIndex : option (Payload -> Z)) (widthTracker : option ColumnWidthTracker)
  : list string * option ColumnWidthTracker :=
  match cells with
  | [] => ([], widthTracker)
  | Present cell :: rest =>
      let widthTracker' :=
        match widthTracker with
        | Some tr => Some (updateColumnWidth tr colIndex cell)
        | None => None
        end in
      let '(xs, out) := mapCells rest (colIndex + 1) rowIndex getStringIndex widthTracker' in
      (serializeCell cell rowIndex colIndex getStringIndex :: xs, out)
  | _ :: rest =>
      let '(xs, out) := mapCells rest (colIndex + 1) rowIndex getStringIndex widthTracker in
      ("" :: xs, out)
  end.

Definition serializeRow (row : Row) (getStringIndex : option (Payload -> Z))
    (widthTracker : option ColumnWidthTracker) : string * option ColumnWidthTracker :=
  let rowIndex := match rowIndex row with Some r => r | None => 1 end in
  let rowIndexAttr := " r=" +:+ quoted (numToString rowIndex) in
  let firstColIndex := findIndex isPresent (cells row) in
  let firstCol := if bool_decide (0 <= firstColIndex) then firstColIndex + 1 else 1 in
  let lastCol := lastColLoop (cells row) (length (cells row)) firstCol in
  let spansAttr :=
    " spans=" +:+ quoted (numToString firstCol +:+ ":" +:+ numToString lastCol) in
  let '(mapped, out) := mapCells (cells row) 0 rowIndex getStringIndex widthTracker in
  let cellsXml := join "" mapped in
  ("<row" +:+ rowIndexAttr +:+ spansAttr +:+ ">" +:+ cellsXml +:+ "</row>", out).

(** *** [generateColsXml] *)

(** The template of one width declaration,
    [    <col min="${min}" max="${max}" width="${width}" customWidth="1"/>]. *)
Definition colElement (min max : Z) (width : Number) : string :=
  "    <col min=" +:+ quoted (numToString min) +:+ " max=" +:+ quoted (numToString max)
    +:+ " width=" +:+ quoted (Number_toString width) +:+ " customWidth=" +:+ quoted "1"
    +:+ "/>".

(** The two locals the loops update: [colElements] (appended to by
    [push]) and [processedColumns]. *)
Definition ColsState : Type := list string * gset Z.

(** [colElements.push(<col for column i with width w>); processedColumns.add(i)] *)
Definition pushColumn (st : ColsState) (i : Z) (w : Number) : ColsState :=
  (st.1 ++ [colElement (i + 1) (i + 1) w], {[i]} ∪ st.2).

(** Body of the loop over an auto-detect range (lines 168-176). *)
Definition autoRangeStep (trackedWidths : gmap Z Number) (st : ColsState) (i : Z)
  : ColsState :=
  if bool_decide (i ∈ st.2) then st
  else match trackedWidths !! i with
       | Some trackedWidth => pushColumn st i trackedWidth
       | None => st
       end.

(** Body of [for (const def of columnWidths)] (lines 152-187). *)
Definition processDefinition (maxColumnIndex : Z) (trackedWidths : gmap Z Number)
    (st : ColsState) (def : ColumnWidthDefinition) : ColsState :=
  match columnIndex def with
  | Some colIndex =>
      if bool_decide (colIndex <= maxColumnIndex) && negb (bool_decide (colIndex ∈ st.2))
      then
        let width :=
          match width def with
          | Some w => Some w
          | None => if truthy (autoDetect def) then trackedWidths !! colIndex else None
          end in
        match width with
        | Some w => pushColumn st colIndex w
        | None => st
        end
      else st
  | None =>
      match columnRange def with
      | Some range =>
          let min := Z.max 0 (from range) in
          let max := Z.min maxColumnIndex (to range) in
          if bool_decide (min <= max) then
            if truthy (autoDetect def) then
              foldl (autoRangeStep trackedWidths) st (seqZ min (max - min + 1))
            else
              match width def with
              | Some w =>
                  (st.1 ++ [colElement (min + 1) (max + 1) w],
                   foldl (fun processed i => {[i]} ∪ processed) st.2
                     (seqZ min (max - min + 1)))
              | None => st
              end
          else st
      | None => st
      end
  end.

(** Body of the loop over [0 .. maxColumnIndex] (lines 192-203). *)
Definition fallbackStep (defaultWidth : option Number) (trackedWidths : gmap Z Number)
    (st : ColsState) (colIndex : Z) : ColsState :=
  if bool_decide (colIndex ∈ st.2) then st
  else match trackedWidths !! colIndex with
       | Some trackedWidth => pushColumn st colIndex trackedWidth
       | None =>
           match defaultWidth with
           | Some d => pushColumn st colIndex d
           | None => st
           end
       end.

(** The state after the loop over the definitions (lines 150-189). *)
Definition afterDefinitions (maxColumnIndex : Z)
    (columnWidths : option (list ColumnWidthDefinition)) (trackedWidths : gmap Z Number)
  : ColsState :=
  match columnWidths with
  | Some defs => foldl (processDefinition maxColumnIndex trackedWidths) ([], ∅) defs
  | None => ([], ∅)
  end.

(** The state after the loop over the columns (lines 192-203). *)
Definition afterFallback (maxColumnIndex : Z) (defaultWidth : option Number)
    (columnWidths : option (list ColumnWidthDefinition)) (trackedWidths : gmap Z Number)
  : ColsState :=
  foldl (fallbackStep defaultWidth trackedWidths)
    (afterDefinitions maxColumnIndex columnWidths trackedWidths)
    (seqZ 0 (maxColumnIndex + 1)).

(** [colElements] as it stands when line 210 is reached. *)
Definition colElements (maxColumnIndex : Z) (defaultWidth : option Number)
    (columnWidths : option (list ColumnWidthDefinition)) (trackedWidths : gmap Z Number)
  : list string :=
  let els := (afterFallback maxColumnIndex defaultWidth columnWidths trackedWidths).1 in
  match els, defaultWidth with
  | [], Some d => els ++ [colElement 1 (maxColumnIndex + 1) d]
  | _, _ => els
  end.

Definition generateColsXml (maxColumnIndex : Z) (defaultWidth : option Number)
    (columnWidths : option (list ColumnWidthDefinition)) (trackedWidths : gmap Z Number)
  : string :=
  if bool_decide (maxColumnIndex < 0) then ""
  else
    let els := colElements maxColumnIndex defaultWidth columnWidths trackedWidths in
    match els with
    | [] => ""
    | _ => "<cols>" +:+ nl +:+ join nl els +:+ nl +:+ "  </cols>"
    end.

(** *** [generateSheetFormatPr] *)

Definition generateSheetFormatPr (defaultWidth : option Number) : string :=
  match defaultWidth with
  | None => ""
  | Some d => "    <sheetFormatPr defaultColWidth=" +:+ quoted (Number_toString d) +:+ "/>"
  end.

(** *** [writeSheetXml] *)

(** The row source is a finite sequence of rows and the generator's
    result the list of the fragments it yields, in order. *)

Definition prolog : string :=
  "<?xml version=" +:+ quoted "1.0" +:+ " encoding=" +:+ quoted "UTF-8"
    +:+ " standalone=" +:+ quoted "yes" +:+ "?>" +:+ nl
    +:+ "<worksheet xmlns="
    +:+ quoted "http://schemas.openxmlformats.org/spreadsheetml/2006/main" +:+ ">".

(** [needsColsXml] (lines 253-255). *)
Definition needsColsXml (cw : option SheetColumnWidthOptions) : bool :=
  match cw with
  | None => false
  | Some o =>
      match columnWidths o with
      | Some defs => bool_decide (0 < length defs)%nat
      | None => false
      end
      || match autoDetectColumnWidth o with Some true => true | _ => false end
  end.

(** [needsWidthTracking] (lines 258-260). *)
Definition needsWidthTracking (cw : option SheetColumnWidthOptions) : bool :=
  let autoDetectAll :=
    match cw with
    | Some o => match autoDetectColumnWidth o with Some b => b | None => false end
    | None => false
    end in
  let hasPerColumnAutoDetect :=
    match cw with
    | Some o =>
        match columnWidths o with
        | Some defs => existsb (fun def => truthy (autoDetect def)) defs
        | None => false
        end
    | None => false
    end in
  autoDetectAll || hasPerColumnAutoDetect.

(** [columnWidthOptions?.defaultColumnWidth] *)
Definition defaultColumnWidthOf (cw : option SheetColumnWidthOptions) : option Number :=
  match cw with Some o => defaultColumnWidth o | None => None end.

(** [columnWidthOptions?.columnWidths] *)
Definition columnWidthsOf (cw : option SheetColumnWidthOptions)
  : option (list ColumnWidthDefinition) :=
  match cw with Some o => columnWidths o | None => None end.

(** A loop that yields [serializeRow(row, getStringIndex, widthTracker)]
    for each row, threading the tracker (lines 272-274 and 325-327). *)
Fixpoint serializeRows (rows : list Row) (getStringIndex : option (Payload -> Z))
    (widthTracker : ColumnWidthTracker) : list string * ColumnWidthTracker :=
  match rows with
  | [] => ([], widthTracker)
  | row :: rest =>
      let '(xml, out) := serializeRow row getStringIndex (Some widthTracker) in
      let widthTracker' := match out with Some tr => tr | None => widthTracker end in
      let '(xmls, final) := serializeRows rest getStringIndex widthTracker' in
      (xml :: xmls, final)
  end.

(** The fast path (lines 265-278). *)
Definition fastPath (rows : list Row) (getStringIndex : option (Payload -> Z))
    (cw : option SheetColumnWidthOptions) (widthTracker : ColumnWidthTracker)
  : list string :=
  match defaultColumnWidthOf cw with
  | Some d => [generateSheetFormatPr (Some d)]
  | None => []
  end
  ++ ["<sheetData>"]
  ++ (serializeRows rows getStringIndex widthTracker).1
  ++ ["</sheetData></worksheet>"].

(** [row.cells.forEach] of the buffering loop (lines 293-297), from
    column [colIndex] on. *)
Fixpoint trackCells (cells : list CellSlot) (colIndex : Z) (widthTracker : ColumnWidthTracker)
  : ColumnWidthTracker :=
  match cells with
  | [] => widthTracker
  | Present cell :: rest =>
      trackCells rest (colIndex + 1) (updateColumnWidth widthTracker colIndex cell)
  | _ :: rest => trackCells rest (colIndex + 1) widthTracker
  end.

(** The buffering loop (lines 285-299): [allRows], [maxColumnIndex]
    and the tracker after every row was consumed. *)
Fixpoint bufferRows (rows : list Row) (tracking : bool)
    (acc : list Row * Z * ColumnWidthTracker) : list Row * Z * ColumnWidthTracker :=
  match rows with
  | [] => acc
  | row :: rest =>
      let '(allRows, maxColumnIndex, widthTracker) := acc in
      let allRows := allRows ++ [row] in
      let maxColumnIndex := Z.max maxColumnIndex (Z.of_nat (length (cells row)) - 1) in
      let widthTracker :=
        if tracking then trackCells (cells row) 0 widthTracker else widthTracker in
      bufferRows rest tracking (allRows, maxColumnIndex, widthTracker)
  end.

(** The slow path (lines 285-329); [needsCols] and [tracking] are the
    values of [needsColsXml] and [needsWidthTracking] it reads. *)
Definition slowPath (rows : list Row) (getStringIndex : option (Payload -> Z))
    (cw : option SheetColumnWidthOptions) (needsCols tracking : bool)
    (widthTracker : ColumnWidthTracker) : list string :=
  let '(allRows, maxColumnIndex, widthTracker) :=
    bufferRows rows tracking ([], -1, widthTracker) in
  let sheetFormatPr := generateSheetFormatPr (defaultColumnWidthOf cw) in
  let colsXml :=
    if needsCols
    then generateColsXml maxColumnIndex (defaultColumnWidthOf cw) (columnWidthsOf cw)
           (getAllWidths widthTracker)
    else "" in
  (if nonEmpty sheetFormatPr then [sheetFormatPr] else [])
  ++ (if nonEmpty colsXml then [colsXml] else [])
  ++ ["<sheetData>"]
  ++ (serializeRows allRows getStringIndex widthTracker).1
  ++ ["</sheetData></worksheet>"].

Definition writeSheetXml (rows : list Row) (options : option WriteSheetXmlOptions)
  : list string :=
  let getStringIndex :=
    match options with Some o => getStringIndex o | None => None end in
  let columnWidthOptions :=
    match options with Some o => columnWidthOptions o | None => None end in
  let needsCols := needsColsXml columnWidthOptions in
  let tracking := needsWidthTracking columnWidthOptions in
  let widthTracker := newColumnWidthTracker tracking in
  prolog ::
  (if negb needsCols
   then fastPath rows getStringIndex columnWidthOptions widthTracker
   else slowPath rows getStringIndex columnWidthOptions needsCols tracking widthTracker).

End Model.

End Writer.

Import Writer.

(** ** A concrete instance

    Integers stand for the JavaScript numbers, a resolver in the manner
    of the specification's cell resolver (dates are left as they are)
    and the usual escaping of the five XML characters. The instance is
    used to run the writer on concrete rows. *)
Module Sample.

Definition resolve (c : @Cell Z) : @CellResolved Z :=
  match value c with
  | VString s => {| t := Ts; v := PStr s |}
  | VNumber n => {| t := Tn; v := PNum n |}
  | VDate d => {| t := Td; v := PNum d |}
  | VBoolean b => {| t := Tb; v := PStr (if b then "1" else "0") |}
  | VNull | VUndefined => {| t := Ts; v := PStr "" |}
  end.

Fixpoint escapeText (s : string) : string :=
  match s with
  | EmptyString => EmptyString
  | String c s' =>
      (if Ascii.eqb c "&" then "&amp;"
       else if Ascii.eqb c "<" then "&lt;"
       else if Ascii.eqb c ">" then "&gt;"
       else if Ascii.eqb c "034" then "&quot;"
       else if Ascii.eqb c "'" then "&apos;"
       else String c "") +:+ escapeText s'
  end.

Definition escape (p : @Payload Z) : string := escapeText (String_ numToString p).

(** Width heuristic of the sample tracker: the length of the rendered payload. *)
Definition cellWidth (c : @Cell Z) : Z :=
  Z.of_nat (String.length (String_ numToString (v (resolve c)))).

Definition cell (x : @CellValue Z) : @CellSlot Z := Present {| value := x; type := None |}.

Definition serializeRow := @serializeRow Z numToString resolve escape cellWidth Z.max.
Definition writeSheetXml := @writeSheetXml Z numToString resolve escape cellWidth Z.max.
Definition generateColsXml := @generateColsXml Z numToString.

End Sample.

(** ** Concrete rows and width definitions *)

Module Run.

Import Sample.

(** The row of the specification's end-to-end example. *)
Definition exampleRow : @Row Z :=
  {| cells := [cell (VString "Name"); cell (VNumber 42); Null; cell (VBoolean true)];
     rowIndex := Some 3 |}.

(** A row whose present cells sit at the indices 1 and 3. *)
Definition sparseRow : @Row Z :=
  {| cells := [Null; cell (VString "a"); Undefined; cell (VNumber 7); Null];
     rowIndex := Some 2 |}.

(** A row without present cells and without a row number. *)
Definition emptyRow : @Row Z := {| cells := [Null; Undefined]; rowIndex := None |}.

(** One declaration [<col .../>] as text. *)
Definition col (min max width : string) : string :=
  "    <col min=" +:+ quoted min +:+ " max=" +:+ quoted max
    +:+ " width=" +:+ quoted width +:+ " customWidth=" +:+ quoted "1" +:+ "/>".

Definition definitionFor (c : Z) (w : option Z) (ad : option bool)
  : @ColumnWidthDefinition Z :=
  {| columnIndex := Some c; columnRange := None; width := w; autoDetect := ad |}.

Definition definitionForRange (a b : Z) (w : option Z) (ad : option bool)
  : @ColumnWidthDefinition Z :=
  {| columnIndex := None; columnRange := Some {| from := a; to := b |};
     width := w; autoDetect := ad |}.

Definition widthOptions (defs : option (list (@ColumnWidthDefinition Z)))
    (defaultWidth : option Z) : option (@WriteSheetXmlOptions Z) :=
  Some {| getStringIndex := None;
          columnWidthOptions :=
            Some {| autoDetectColumnWidth := None; columnWidths := defs;
                    defaultColumnWidth := defaultWidth |} |}.

End Run.

(** ** Notions used to state the properties *)

(** Bijective base 26: the letters [A] .. [Z] are the digits 1 .. 26
    and a string is read most significant digit first. *)
Definition letterDigit (c : ascii) : Z := Z.of_N (N_of_ascii c) - 64.

Fixpoint letterValueFrom (acc : Z) (s : string) : Z :=
  match s with
  | EmptyString => acc
  | String c s' => letterValueFrom (acc * 26 + letterDigit c) s'
  end.

Definition letterValue (s : string) : Z := letterValueFrom 0 s.

Fixpoint allLetters (s : string) : bool :=
  match s with
  | EmptyString => true
  | String c s' =>
      bool_decide (1 <= letterDigit c <= 26) && allLetters s'
  end.

Module Spec.

Section Notions.

Context {Number : Type}.
Variable Number_toString : Number -> string.

(** The present cells of a cell array with their column indices, the
    first slot being column [i]. *)
Fixpoint presentFrom (i : Z) (slots : list (@CellSlot Number)) : list (Z * @Cell Number) :=
  match slots with
  | [] => []
  | Present c :: rest => (i, c) :: presentFrom (i + 1) rest
  | _ :: rest => presentFrom (i + 1) rest
  end.

Definition presentCells (slots : list (@CellSlot Number)) : list (Z * @Cell Number) :=
  presentFrom 0 slots.

(** The row number a row is written with: [row.rowIndex ?? 1]. *)
Definition rowNumber (row : @Row Number) : Z :=
  match rowIndex row with Some r => r | None => 1 end.

(** The width declaration of the single column [i] when a width was
    tracked for it, and nothing otherwise. *)
Definition trackedDecl (trackedWidths : gmap Z Number) (i : Z) : list string :=
  match trackedWidths !! i with
  | Some w => [colElement Number_toString (i + 1) (i + 1) w]
  | None => []
  end.

(** The declaration of the single column [i] with the default width
    when no width was tracked for it and a default is configured. *)
Definition defaultDecl (defaultWidth : option Number) (trackedWidths : gmap Z Number)
    (i : Z) : list string :=
  match trackedWidths !! i, defaultWidth with
  | None, Some d => [colElement Number_toString (i + 1) (i + 1) d]
  | _, _ => []
  end.

(** The declaration the loop over the columns makes for a column
    that no definition covered: its tracked width if one was
    observed, otherwise the default width if one is configured. *)
Definition columnDecl (defaultWidth : option Number) (trackedWidths : gmap Z Number)
    (i : Z) : list string :=
  trackedDecl trackedWidths i ++ defaultDecl defaultWidth trackedWidths i.

(** The width a per-column-index definition yields for column [c]:
    [def.width ?? (def.autoDetect ? trackedWidths.get(c) : undefined)]. *)
Definition definitionWidth (trackedWidths : gmap Z Number)
    (def : @ColumnWidthDefinition Number) (c : Z) : option Number :=
  match width def with
  | Some w => Some w
  | None => if truthy (autoDetect def) then trackedWidths !! c else None
  end.

End Notions.

End Spec.

Import Spec.

(** ** [src/utils/format-codes.ts]: the built-in date formats *)

Module FormatCodes.

Definition DEFAULT_DATE_FORMAT : string := "yyyy-MM-dd".

Definition BUILT_IN_DATE_FORMAT_IDS : gset Z :=
  list_to_set [14; 15; 16; 17; 18; 19; 20; 21; 22].

Definition isBuiltInDateFormat (id : Z) : bool :=
  bool_decide (id ∈ BUILT_IN_DATE_FORMAT_IDS).

(** The table [formatMap] of [getBuiltInFormatCode]. *)
Definition formatMap : gmap Z string :=
  list_to_map
    [(14, "mm/dd/yyyy"); (15, "d-mmm-yy"); (16, "d-mmm"); (17, "mmm-yy");
     (18, "h:mm AM/PM"); (19, "h:mm:ss AM/PM"); (20, "h:mm"); (21, "h:mm:ss");
     (22, "m/d/yy h:mm")].

(** [formatMap[id] || null]: a missing entry and an empty code both
    give [null]. *)
Definition getBuiltInFormatCode (id : Z) : option string :=
  match formatMap !! id with
  | Some code => if nonEmpty code then Some code else None
  | None => None
  end.

End FormatCodes.

(** ** Further notions *)

(** The number of letter strings of length below [n]:
    [26^0 + ... + 26^(n-1)]. *)
Fixpoint geometric26 (n : nat) : Z :=
  match n with
  | O => 0
  | S m => 26 * geometric26 m + 1
  end.

(** A character that is not one of the letters [A] .. [Z]. *)
Definition notLetter (c : ascii) : Prop := ~ (1 <= letterDigit c <= 26).

(** A text that starts with a character that is not a letter. *)
Definition startsOffLetters (s : string) : Prop :=
  match s with
  | EmptyString => False
  | String c _ => notLetter c
  end.

Module Cover.

Section Notions.

Context {Number : Type}.
Variable Number_toString : Number -> string.

(** Column [c] (0-based) lies within the span of one of the
    declarations. *)
Definition covers (els : list string) (c : Z) : Prop :=
  exists min max w,
    colElement Number_toString min max w ∈ els /\ min <= c + 1 <= max.

(** The widths a declaration can carry: an explicit width of a
    definition, a tracked width or the default width. *)
Definition knownWidth (defaultWidth : option Number)
    (defs : list (@ColumnWidthDefinition Number)) (trackedWidths : gmap Z Number)
    (w : Number) : Prop :=
  (exists def, def ∈ defs /\ width def = Some w)
  \/ (exists i, trackedWidths !! i = Some w)
  \/ defaultWidth = Some w.

(** A declaration for a span of columns of the sheet with a known width. *)
Definition sound (maxColumnIndex : Z) (defaultWidth : option Number)
    (defs : list (@ColumnWidthDefinition Number)) (trackedWidths : gmap Z Number)
    (el : string) : Prop :=
  exists min max w,
    el = colElement Number_toString min max w
    /\ 1 <= min <= max /\ max <= maxColumnIndex + 1
    /\ knownWidth defaultWidth defs trackedWidths w.

(** Definitions that declare nothing, whatever was declared before:
    a column index beyond the last column or without a width, a range
    that does not meet the columns of the sheet or that has neither a
    width nor auto-detection, and a definition with neither a column
    index nor a range. *)
Definition ineffective (maxColumnIndex : Z) (trackedWidths : gmap Z Number)
    (def : @ColumnWidthDefinition Number) : Prop :=
  match columnIndex def, columnRange def with
  | Some c, _ => maxColumnIndex < c \/ definitionWidth trackedWidths def c = None
  | None, Some r =>
      Z.min maxColumnIndex (to r) < Z.max 0 (from r)
      \/ (truthy (autoDetect def) = false /\ width def = None)
  | None, None => True
  end.

(** [maxColumnIndex] after the buffering loop: the largest
    [cells.length - 1], and -1 without rows. *)
Definition maxColumnIndexOf (rows : list (@Row Number)) : Z :=
  foldl (fun m row => Z.max m (Z.of_nat (length (cells row)) - 1)) (-1) rows.

End Notions.

End Cover.

Import Cover.

(** ** The end of [generateColsXml] as a function of its array *)

Module Tail.

Section Model.

Context {Number : Type}.
Variable Number_toString : Number -> string.

(** Lines 205-208, on the array [colElements] that the two loops
    leave: [if (colElements.length === 0 && defaultWidth !== undefined)]
    one declaration from column 1 to column [maxColumnIndex + 1] is
    pushed. *)
Definition finishColElements (colElements : list string) (defaultWidth : option Number)
    (maxColumnIndex : Z) : list string :=
  match colElements, defaultWidth with
  | [], Some d => colElements ++ [colElement Number_toString 1 (maxColumnIndex + 1) d]
  | _, _ => colElements
  end.

(** Lines 210-214: the empty text for an empty array, the [cols]
    element around the joined declarations otherwise. *)
Definition renderCols (colElements : list string) : string :=
  match colElements with
  | [] => ""
  | _ => "<cols>" +:+ nl +:+ join nl colElements +:+ nl +:+ "  </cols>"
  end.

End Model.

End Tail.

Import Tail.

(** ** Properties of the column letters *)

Lemma letterDigit_fromCharCode (d : Z) :
  0 <= d < 26 -> letterDigit (fromCharCode (65 + d)) = d + 1.
Proof.
  intros Hd. unfold letterDigit, fromCharCode.
  rewrite N_ascii_embedding; lia.
Qed.

Lemma letterLoop_value (n : Z) (result : string) :
  0 <= n -> letterValue (letterLoop n result) = letterValueFrom n result.
Proof.
  funelim (letterLoop n result); intros Hn.
  - rewrite H by (apply Z.div_pos; lia). simpl.
    rewrite letterDigit_fromCharCode by (apply Z.rem_bound_pos; lia).
    f_equal.
    rewrite Z.rem_mod_nonneg by lia.
    pose proof (Z.div_mod (colIndex - 1) 26). lia.
  - assert (colIndex = 0) as -> by lia. reflexivity.
Qed.

Lemma letterLoop_letters (n : Z) (result : string) :
  0 <= n -> allLetters result = true -> allLetters (letterLoop n result) = true.
Proof.
  funelim (letterLoop n result); intros Hn Hres; [|done].
  apply H; [apply Z.div_pos; lia|]. simpl.
  rewrite letterDigit_fromCharCode by (apply Z.rem_bound_pos; lia).
  rewrite Hres, andb_true_r. apply bool_decide_eq_true.
  pose proof (Z.rem_bound_pos (colIndex - 1) 26). lia.
Qed.

(** C4: [columnIndexToLetter] writes the 0-based index [a] as the
    number [a + 1] in bijective base 26 with the digits [A] .. [Z]; it
    is therefore injective on the column indices, and it maps 0, 25,
    26, 701 and 702 to A, Z, AA, ZZ and AAA. *)
Theorem columnIndexToLetter_bijective_base26 (a b : Z) :
  0 <= a -> 0 <= b ->
  letterValue (columnIndexToLetter a) = a + 1
  /\ allLetters (columnIndexToLetter a) = true
  /\ (columnIndexToLetter a = columnIndexToLetter b -> a = b)
  /\ columnIndexToLetter 0 = "A"
  /\ columnIndexToLetter 25 = "Z"
  /\ columnIndexToLetter 26 = "AA"
  /\ columnIndexToLetter 701 = "ZZ"
  /\ columnIndexToLetter 702 = "AAA".
Proof.
  intros Ha Hb. unfold columnIndexToLetter.
  split; [|split; [|split]].
  - rewrite letterLoop_value by lia. reflexivity.
  - apply letterLoop_letters; [lia|reflexivity].
  - intros Heq. apply (f_equal letterValue) in Heq.
    rewrite !letterLoop_value in Heq by lia. simpl in Heq. lia.
  - repeat split; vm_compute; reflexivity.
Qed.

Lemma columnIndexToLetter_bijective_base26_witness :
  0 <= 27 /\ 0 <= 51
  /\ letterValue (columnIndexToLetter 27) = 27 + 1
  /\ (columnIndexToLetter 27 = columnIndexToLetter 51 -> 27 = 51).
Proof.
  assert (H27 : 0 <= 27) by lia. assert (H51 : 0 <= 51) by lia.
  destruct (columnIndexToLetter_bijective_base26 27 51 H27 H51) as (Hv & _ & Hinj & _).
  split; [exact H27|]. split; [exact H51|]. split; [exact Hv|exact Hinj].
Defined.

(** ** Text lemmas *)

Lemma append_assoc (a b c : string) : (a +:+ b) +:+ c = a +:+ (b +:+ c).
Proof. induction a as [|x a IH]; [done|]. exact (f_equal (String x) IH). Qed.

Lemma append_nil_r (a : string) : a +:+ "" = a.
Proof. induction a as [|x a IH]; [done|]. exact (f_equal (String x) IH). Qed.

Lemma join_cons (x : string) (l : list string) : join "" (x :: l) = x +:+ join "" l.
Proof. destruct l; [symmetry; apply append_nil_r|reflexivity]. Qed.

(** ** Properties of cells and rows *)

Section Properties.

Context {Number : Type}.
Variable Number_toString : Number -> string.
Variable resolveCell : @Cell Number -> @CellResolved Number.
Variable escapeXml : @Payload Number -> string.
Variable calculateCellWidth : @Cell Number -> Number.
Variable Number_max : Number -> Number -> Number.

Local Abbreviation serializeCell := (serializeCell Number_toString resolveCell escapeXml).
Local Abbreviation mapCells :=
  (mapCells Number_toString resolveCell escapeXml calculateCellWidth Number_max).
Local Abbreviation serializeRow :=
  (serializeRow Number_toString resolveCell escapeXml calculateCellWidth Number_max).

(** C3: the three shapes of a cell element. A textual cell is written
    with the resolver's index and [t="s"] when a resolver is supplied
    and as an inline string with escaped text when none is; any other
    cell is written with its literal value, with a [t] attribute of
    its tag unless the tag is the numeric one. *)
Theorem serializeCell_shapes (cell : Cell) (rowIndex colIndex : Z)
    (getStringIndex : option (Payload -> Z)) :
  let resolved := resolveCell cell in
  let open := "<c r=" +:+ quoted (getCellReference rowIndex colIndex)
                +:+ " s=" +:+ quoted "0" in
  (forall getIndex, t resolved = Ts -> getStringIndex = Some getIndex ->
     serializeCell cell rowIndex colIndex getStringIndex =
       open +:+ " t=" +:+ quoted "s" +:+ "><v>"
         +:+ numToString (getIndex (v resolved)) +:+ "</v></c>")
  /\ (t resolved = Ts -> getStringIndex = None ->
     serializeCell cell rowIndex colIndex getStringIndex =
       open +:+ " t=" +:+ quoted "inlineStr" +:+ "><is><t>"
         +:+ escapeXml (v resolved) +:+ "</t></is></c>")
  /\ (t resolved <> Ts -> t resolved <> Tn ->
     serializeCell cell rowIndex colIndex getStringIndex =
       open +:+ " t=" +:+ quoted (tagText (t resolved)) +:+ "><v>"
         +:+ String_ Number_toString (v resolved) +:+ "</v></c>")
  /\ (t resolved = Tn ->
     serializeCell cell rowIndex colIndex getStringIndex =
       open +:+ "><v>" +:+ String_ Number_toString (v resolved) +:+ "</v></c>").
Proof.
  intros resolved open. subst open. unfold Writer.serializeCell. fold resolved.
  repeat split.
  - intros getIndex -> ->. by rewrite ?append_assoc.
  - intros -> ->. by rewrite ?append_assoc.
  - intros Hs Hn. destruct (t resolved); try done;
      destruct getStringIndex; by rewrite ?append_assoc.
  - intros ->. destruct getStringIndex; by rewrite ?append_assoc.
Qed.

(** The mapped cell array, once joined, holds the present cells only. *)
Lemma mapCells_join (slots : list CellSlot) (i r : Z) (g : option (Payload -> Z))
    (wt : option ColumnWidthTracker) :
  join "" (mapCells slots i r g wt).1 =
  join "" ((fun jc => serializeCell jc.2 r jc.1 g) <$> presentFrom i slots).
Proof.
  revert i wt. induction slots as [|slot rest IH]; intros i wt; [done|].
  destruct slot as [c| |]; simpl.
  - match goal with |- context [mapCells rest ?j r g ?w] =>
      specialize (IH j w); destruct (mapCells rest j r g w) as [xs out] end.
    simpl in *. by rewrite !join_cons, IH.
  - specialize (IH (i + 1) wt). destruct (mapCells rest (i + 1) r g wt) as [xs out].
    simpl in *. by rewrite join_cons, IH.
  - specialize (IH (i + 1) wt). destruct (mapCells rest (i + 1) r g wt) as [xs out].
    simpl in *. by rewrite join_cons, IH.
Qed.

Lemma presentFrom_none (slots : list (@CellSlot Number)) (i : Z) :
  Forall (fun slot => isPresent slot = false) slots -> presentFrom i slots = [].
Proof.
  intros H. revert i. induction H as [|slot rest Hs _ IH]; intros i; [done|].
  destruct slot; [done|apply IH..].
Qed.

Lemma findIndexFrom_none (slots : list (@CellSlot Number)) (i : Z) :
  Forall (fun slot => isPresent slot = false) slots ->
  findIndexFrom isPresent slots i = -1.
Proof.
  intros H. revert i. induction H as [|slot rest Hs _ IH]; intros i; [done|].
  simpl. by rewrite Hs.
Qed.

Lemma findIndexFrom_first (slots : list (@CellSlot Number)) (k : nat) (i : Z) (c : Cell) :
  slots !! k = Some (Present c) ->
  (forall j c', (j < k)%nat -> slots !! j <> Some (Present c')) ->
  findIndexFrom isPresent slots i = i + Z.of_nat k.
Proof.
  revert k i. induction slots as [|slot rest IH]; intros k i Hk Hbefore; [done|].
  destruct k as [|k]; simpl in *.
  - injection Hk as ->. simpl. lia.
  - destruct slot as [c'| |]; simpl.
    + by destruct (Hbefore 0%nat c'); [lia|].
    + rewrite (IH k); [lia|done|]. intros j c' Hj. apply (Hbefore (S j)). lia.
    + rewrite (IH k); [lia|done|]. intros j c' Hj. apply (Hbefore (S j)). lia.
Qed.

Lemma lastColLoop_none (slots : list (@CellSlot Number)) (n : nat) (d : Z) :
  (forall j c, (j < n)%nat -> slots !! j <> Some (Present c)) ->
  lastColLoop slots n d = d.
Proof.
  induction n as [|n IH]; intros Hno; [done|]. simpl.
  destruct (slots !! n) as [[c| |]|] eqn:E; try (apply IH; intros; apply Hno; lia).
  by destruct (Hno n c); [lia|].
Qed.

Lemma lastColLoop_last (slots : list (@CellSlot Number)) (n k : nat) (d : Z) (c : Cell) :
  slots !! k = Some (Present c) -> (k < n)%nat ->
  (forall j c', (k < j < n)%nat -> slots !! j <> Some (Present c')) ->
  lastColLoop slots n d = Z.of_nat k + 1.
Proof.
  induction n as [|n IH]; intros Hk Hlt Hafter; [lia|]. simpl.
  destruct (decide (k = n)) as [->|Hne].
  - by rewrite Hk.
  - destruct (slots !! n) as [[c'| |]|] eqn:E;
      try (apply IH; [done|lia|intros; apply Hafter; lia]).
    by destruct (Hafter n c'); [lia|].
Qed.

(** C9: a row without present cells is still written, as an empty row
    element with its row number (1 when the row carries none) and the
    span [1:1]. *)
Theorem serializeRow_no_present_cells (row : Row) (getStringIndex : option (Payload -> Z))
    (widthTracker : option ColumnWidthTracker) :
  Forall (fun slot => isPresent slot = false) (cells row) ->
  (serializeRow row getStringIndex widthTracker).1 =
    "<row r=" +:+ quoted (numToString (rowNumber row))
      +:+ " spans=" +:+ quoted "1:1" +:+ "></row>".
Proof.
  intros Hnone. unfold Writer.serializeRow, rowNumber.
  set (r := match rowIndex row with Some r => r | None => 1 end).
  pose proof (mapCells_join (cells row) 0 r getStringIndex widthTracker) as Hj.
  destruct (mapCells (cells row) 0 r getStringIndex widthTracker) as [mapped out].
  simpl in *. rewrite Hj, presentFrom_none by done.
  unfold findIndex. rewrite findIndexFrom_none by done.
  rewrite lastColLoop_none.
  - by rewrite ?append_assoc.
  - intros j c _ Hj'. apply list_elem_of_lookup_2 in Hj'.
    by apply (proj1 (Forall_forall _ _) Hnone) in Hj'.
Qed.

(** C2: when the present cells of a row sit at exactly the indices
    [i1 < ... < ik] (with [k >= 1]), the row element carries the span
    [i1+1:ik+1], whatever holes lie in between, and holds one cell
    element per present cell and none for the holes. *)
Theorem serializeRow_span (row : Row) (getStringIndex : option (Payload -> Z))
    (widthTracker : option ColumnWidthTracker) (indices : list nat) (i1 ik : nat) :
  StronglySorted lt indices ->
  (forall j, j ∈ indices <-> exists c, cells row !! j = Some (Present c)) ->
  head indices = Some i1 ->
  last indices = Some ik ->
  (serializeRow row getStringIndex widthTracker).1 =
    "<row r=" +:+ quoted (numToString (rowNumber row))
      +:+ " spans="
      +:+ quoted (numToString (Z.of_nat i1 + 1) +:+ ":" +:+ numToString (Z.of_nat ik + 1))
      +:+ ">"
      +:+ join "" ((fun jc => serializeCell jc.2 (rowNumber row) jc.1 getStringIndex)
                     <$> presentCells (cells row))
      +:+ "</row>".
Proof.
  intros Hsorted Hexact Hhead Hlast.
  apply head_Some in Hhead as [tl ->].
  assert (Hmin : forall j, j ∈ i1 :: tl -> (i1 <= j)%nat).
  { intros j [->|Hj]%elem_of_cons; [lia|].
    apply StronglySorted_cons in Hsorted as [Hall _].
    apply (proj1 (Forall_forall _ _) Hall) in Hj. lia. }
  assert (Hmax : forall j, j ∈ i1 :: tl -> (j <= ik)%nat).
  { apply last_Some in Hlast as [front Hfront]. rewrite Hfront in Hsorted |- *.
    intros j [Hj|Hj%list_elem_of_singleton]%elem_of_app; [|lia].
    pose proof (StronglySorted_app_1_elem_of _ _ _ j ik Hsorted Hj) as Hlt.
    specialize (Hlt ltac:(by apply list_elem_of_singleton)). lia. }
  assert (H1 : i1 ∈ i1 :: tl) by apply list_elem_of_here.
  assert (Hk : ik ∈ i1 :: tl) by (by apply last_Some_elem_of).
  apply Hexact in H1 as [c1 Hc1]. apply Hexact in Hk as [ck Hck].
  unfold Writer.serializeRow, rowNumber, presentCells.
  set (r := match rowIndex row with Some r => r | None => 1 end).
  pose proof (mapCells_join (cells row) 0 r getStringIndex widthTracker) as Hj.
  destruct (mapCells (cells row) 0 r getStringIndex widthTracker) as [mapped out].
  simpl in *. rewrite Hj. unfold findIndex.
  rewrite (findIndexFrom_first _ i1 0 c1 Hc1).
  2:{ intros j c' Hlt Hc'. assert (j ∈ i1 :: tl) as Hin by (apply Hexact; eauto).
      apply Hmin in Hin. lia. }
  rewrite bool_decide_eq_true_2 by lia.
  rewrite (lastColLoop_last _ _ ik _ ck Hck).
  - rewrite Z.add_0_l. by rewrite ?append_assoc.
  - by apply lookup_lt_Some in Hck.
  - intros j c' Hlt Hc'. assert (j ∈ i1 :: tl) as Hin by (apply Hexact; eauto).
    apply Hmax in Hin. lia.
Qed.

End Properties.

(** ** Properties of the two paths of [writeSheetXml] *)

Section Paths.

Context {Number : Type}.
Variable Number_toString : Number -> string.
Variable resolveCell : @Cell Number -> @CellResolved Number.
Variable escapeXml : @Payload Number -> string.
Variable calculateCellWidth : @Cell Number -> Number.
Variable Number_max : Number -> Number -> Number.

Local Abbreviation mapCells :=
  (mapCells Number_toString resolveCell escapeXml calculateCellWidth Number_max).
Local Abbreviation serializeRow :=
  (serializeRow Number_toString resolveCell escapeXml calculateCellWidth Number_max).
Local Abbreviation serializeRows :=
  (serializeRows Number_toString resolveCell escapeXml calculateCellWidth Number_max).
Local Abbreviation bufferRows := (bufferRows calculateCellWidth Number_max).
Local Abbreviation generateColsXml := (generateColsXml Number_toString).
Local Abbreviation fastPath :=
  (fastPath Number_toString resolveCell escapeXml calculateCellWidth Number_max).
Local Abbreviation slowPath :=
  (slowPath Number_toString resolveCell escapeXml calculateCellWidth Number_max).
Local Abbreviation writeSheetXml :=
  (writeSheetXml Number_toString resolveCell escapeXml calculateCellWidth Number_max).

(** The text of a cell array does not depend on the tracker. *)
Lemma mapCells_tracker (slots : list CellSlot) (i r : Z) (g : option (Payload -> Z))
    (wt : option ColumnWidthTracker) :
  (mapCells slots i r g wt).1 = (mapCells slots i r g None).1.
Proof.
  revert i wt. induction slots as [|slot rest IH]; intros i wt; [done|].
  destruct slot as [c| |]; simpl.
  - match goal with |- context [mapCells rest ?j r g (match wt with _ => _ end)] =>
      pose proof (IH j (match wt with
                        | Some tr => Some (updateColumnWidth calculateCellWidth Number_max tr i c)
                        | None => None end)) as IH' end.
    destruct (mapCells rest (i + 1) r g _) as [xs out].
    destruct (mapCells rest (i + 1) r g None) as [xs' out'].
    simpl in *. by rewrite IH'.
  - specialize (IH (i + 1) wt).
    destruct (mapCells rest (i + 1) r g wt) as [xs out].
    destruct (mapCells rest (i + 1) r g None) as [xs' out'].
    simpl in *. by rewrite IH.
  - specialize (IH (i + 1) wt).
    destruct (mapCells rest (i + 1) r g wt) as [xs out].
    destruct (mapCells rest (i + 1) r g None) as [xs' out'].
    simpl in *. by rewrite IH.
Qed.

Lemma serializeRow_tracker (row : Row) (g : option (Payload -> Z))
    (wt : option ColumnWidthTracker) :
  (serializeRow row g wt).1 = (serializeRow row g None).1.
Proof.
  unfold Writer.serializeRow.
  set (r := match rowIndex row with Some r => r | None => 1 end).
  pose proof (mapCells_tracker (cells row) 0 r g wt) as H.
  destruct (mapCells (cells row) 0 r g wt) as [xs out].
  destruct (mapCells (cells row) 0 r g None) as [xs' out'].
  simpl in *. by rewrite H.
Qed.

(** The fragments of a sequence of rows are the rows' texts, in order. *)
Lemma serializeRows_map (rows : list Row) (g : option (Payload -> Z))
    (tr : ColumnWidthTracker) :
  (serializeRows rows g tr).1 = (fun row => (serializeRow row g None).1) <$> rows.
Proof.
  revert tr. induction rows as [|row rest IH]; intros tr; [done|]. simpl.
  pose proof (serializeRow_tracker row g (Some tr)) as Hrow.
  destruct (serializeRow row g (Some tr)) as [xml out].
  match goal with |- context [serializeRows rest g ?w] =>
    specialize (IH w); destruct (serializeRows rest g w) as [xmls final] end.
  simpl in *. by rewrite Hrow, IH.
Qed.

(** Buffering keeps the rows in their arrival order. *)
Lemma bufferRows_rows (rows : list Row) (tracking : bool) (acc : list Row) (m : Z)
    (tr : ColumnWidthTracker) :
  (bufferRows rows tracking (acc, m, tr)).1.1 = acc ++ rows.
Proof.
  revert acc m tr. induction rows as [|row rest IH]; intros acc m tr; simpl.
  - by rewrite app_nil_r.
  - rewrite IH. by rewrite <- app_assoc.
Qed.

(** Without tracking, buffering leaves the tracker as it was. *)
Lemma bufferRows_no_tracking (rows : list Row) (acc : list Row) (m : Z)
    (tr : ColumnWidthTracker) :
  (bufferRows rows false (acc, m, tr)).2 = tr.
Proof.
  revert acc m tr. induction rows as [|row rest IH]; intros acc m tr; simpl; [done|].
  apply IH.
Qed.

Lemma foldl_id {A B} (f : A -> B -> A) (a : A) (l : list B) :
  (forall x, f a x = a) -> foldl f a l = a.
Proof. intros H. induction l as [|x l IH]; simpl; [done|]. by rewrite H. Qed.

(** Without definitions, tracked widths and default width the width
    block is empty. *)
Lemma generateColsXml_nothing (maxColumnIndex : Z) :
  generateColsXml maxColumnIndex None None ∅ = "".
Proof.
  unfold Writer.generateColsXml, colElements, afterFallback, afterDefinitions.
  case_bool_decide; [done|].
  rewrite foldl_id; [done|].
  intros i. unfold fallbackStep. simpl. by rewrite lookup_empty.
Qed.

(** C1: when no column-width option is configured (no default width,
    no definitions, no auto-detection), the slow path yields exactly
    the fragments of the fast path, which is the one [writeSheetXml]
    runs: the prolog, [<sheetData>], the rows in order and the closing
    elements. The width block the slow path would compute is empty
    and left out. *)
Theorem fast_path_equals_slow_path (rows : list Row) (getStringIndex : option (Payload -> Z))
    (cw : option SheetColumnWidthOptions) (needsCols : bool) :
  defaultColumnWidthOf cw = None ->
  columnWidthsOf cw = None ->
  needsWidthTracking cw = false ->
  let tr := newColumnWidthTracker (needsWidthTracking cw) in
  slowPath rows getStringIndex cw needsCols (needsWidthTracking cw) tr
    = fastPath rows getStringIndex cw tr
  /\ writeSheetXml rows
       (Some {| getStringIndex := getStringIndex; columnWidthOptions := cw |})
     = prolog :: fastPath rows getStringIndex cw tr
  /\ join "" (prolog :: slowPath rows getStringIndex cw needsCols (needsWidthTracking cw) tr)
     = join "" (prolog :: "<sheetData>"
                  :: ((fun row => (serializeRow row getStringIndex None).1) <$> rows)
                  ++ ["</sheetData></worksheet>"]).
Proof.
  intros Hdefault Hdefs Htrack tr. subst tr. rewrite Htrack.
  assert (Hneeds : needsColsXml cw = false).
  { destruct cw as [o|]; [|done]. simpl in *.
    unfold needsWidthTracking in Htrack. simpl in Htrack. rewrite Hdefs in *.
    by destruct (autoDetectColumnWidth o) as [[|]|]. }
  assert (Hslow :
    slowPath rows getStringIndex cw needsCols false (newColumnWidthTracker false)
    = "<sheetData>" :: ((fun row => (serializeRow row getStringIndex None).1) <$> rows)
        ++ ["</sheetData></worksheet>"]).
  { unfold Writer.slowPath.
    pose proof (bufferRows_rows rows false [] (-1) (newColumnWidthTracker false)) as Hrows.
    pose proof (bufferRows_no_tracking rows [] (-1) (newColumnWidthTracker false)) as Htr.
    destruct (bufferRows rows false ([], -1, newColumnWidthTracker false))
      as [[allRows maxColumnIndex] widthTracker].
    simpl in Hrows, Htr. subst allRows widthTracker.
    rewrite Hdefault, Hdefs. simpl.
    rewrite generateColsXml_nothing. destruct needsCols; simpl;
      by rewrite serializeRows_map. }
  assert (Hfast :
    fastPath rows getStringIndex cw (newColumnWidthTracker false)
    = "<sheetData>" :: ((fun row => (serializeRow row getStringIndex None).1) <$> rows)
        ++ ["</sheetData></worksheet>"]).
  { unfold Writer.fastPath. rewrite Hdefault. simpl. by rewrite serializeRows_map. }
  split; [by rewrite Hslow, Hfast|]. split.
  - unfold Writer.writeSheetXml. simpl. by rewrite Hneeds, Htrack.
  - by rewrite Hslow.
Qed.

(** C8: in the fast path, in the slow path and hence in
    [writeSheetXml], whatever the configuration, the fragments between
    [<sheetData>] and the closing elements are the texts of the input
    rows, one per row, in arrival order; at most three fragments
    (prolog, default width, width block) come before [<sheetData>]. *)
Theorem writeSheetXml_row_order (rows : list Row) (options : option WriteSheetXmlOptions) :
  let g := match options with Some o => getStringIndex o | None => None end in
  let body := "<sheetData>" :: ((fun row => (serializeRow row g None).1) <$> rows)
                ++ ["</sheetData></worksheet>"] in
  (exists pre, (length pre <= 3)%nat /\ writeSheetXml rows options = pre ++ body)
  /\ (forall cw tr, exists pre, (length pre <= 1)%nat /\
        fastPath rows g cw tr = pre ++ body)
  /\ (forall cw needsCols tracking tr, exists pre, (length pre <= 2)%nat /\
        slowPath rows g cw needsCols tracking tr = pre ++ body).
Proof.
  intros g body.
  assert (Hfast : forall cw tr, exists pre, (length pre <= 1)%nat /\
            fastPath rows g cw tr = pre ++ body).
  { intros cw tr. unfold Writer.fastPath. rewrite serializeRows_map.
    destruct (defaultColumnWidthOf cw); eexists; (split; [|reflexivity]); simpl; lia. }
  assert (Hslow : forall cw needsCols tracking tr, exists pre, (length pre <= 2)%nat /\
            slowPath rows g cw needsCols tracking tr = pre ++ body).
  { intros cw needsCols tracking tr. unfold Writer.slowPath.
    pose proof (bufferRows_rows rows tracking [] (-1) tr) as Hrows.
    destruct (bufferRows rows tracking ([], -1, tr)) as [[allRows maxColumnIndex] widthTracker].
    simpl in Hrows. subst allRows. rewrite serializeRows_map.
    rewrite app_assoc. eexists. split; [|reflexivity].
    rewrite length_app. do 2 case_match; simpl; lia. }
  split; [|by split].
  unfold Writer.writeSheetXml. fold g.
  destruct (negb _).
  - destruct (Hfast (match options with Some o => columnWidthOptions o | None => None end)
                (newColumnWidthTracker (needsWidthTracking
                   (match options with Some o => columnWidthOptions o | None => None end))))
      as (pre & Hlen & ->).
    exists (prolog :: pre). split; [simpl; lia|done].
  - match goal with |- context [slowPath rows g ?cw ?b ?t ?w] =>
      destruct (Hslow cw b t w) as (pre & Hlen & ->) end.
    exists (prolog :: pre). split; [simpl; lia|done].
Qed.

End Paths.

(** ** Properties of the width declarations *)

Section Columns.

Context {Number : Type}.
Variable Number_toString : Number -> string.

Local Abbreviation colElement := (colElement Number_toString).
Local Abbreviation pushColumn := (pushColumn Number_toString).
Local Abbreviation autoRangeStep := (autoRangeStep Number_toString).
Local Abbreviation processDefinition := (processDefinition Number_toString).
Local Abbreviation fallbackStep := (fallbackStep Number_toString).
Local Abbreviation afterDefinitions := (afterDefinitions Number_toString).
Local Abbreviation afterFallback := (afterFallback Number_toString).
Local Abbreviation colElements := (colElements Number_toString).
Local Abbreviation generateColsXml := (generateColsXml Number_toString).
Local Abbreviation trackedDecl := (trackedDecl Number_toString).
Local Abbreviation defaultDecl := (defaultDecl Number_toString).
Local Abbreviation columnDecl := (columnDecl Number_toString).

Implicit Types (st : @ColsState) (def : @ColumnWidthDefinition Number)
  (trackedWidths : gmap Z Number) (defaultWidth : option Number).

Lemma flat_map_ext_elem {A B} (f g : A -> list B) (l : list A) :
  (forall x, x ∈ l -> f x = g x) -> flat_map f l = flat_map g l.
Proof.
  induction l as [|x l IH]; intros H; [done|]. simpl.
  rewrite (H x) by apply list_elem_of_here.
  rewrite IH; [done|]. intros y Hy. apply H. by apply list_elem_of_further.
Qed.

(** A loop over distinct columns whose body skips the processed
    columns and otherwise declares [decl i], marking column [i] as
    processed exactly when [mark i] holds. *)
Lemma foldl_columns (step : ColsState -> Z -> ColsState) (decl : Z -> list string)
    (mark : Z -> Prop) :
  (forall st i, i ∈ st.2 -> step st i = st) ->
  (forall st i, i ∉ st.2 -> (step st i).1 = st.1 ++ decl i) ->
  (forall st i j, i ∉ st.2 -> j ∈ (step st i).2 <-> j ∈ st.2 \/ (j = i /\ mark i)) ->
  forall (l : list Z) st, NoDup l ->
    (foldl step st l).1
      = st.1 ++ flat_map (fun i => if bool_decide (i ∈ st.2) then [] else decl i) l
    /\ (forall j, j ∈ (foldl step st l).2 <-> j ∈ st.2 \/ (j ∈ l /\ mark j)).
Proof.
  intros Hskip Hdecl Hmark l. induction l as [|i l IH]; intros st Hnd; simpl.
  - split; [by rewrite app_nil_r|]. intros j. set_solver.
  - apply NoDup_cons in Hnd as [Hi Hnd].
    destruct (IH (step st i) Hnd) as [IH1 IH2]. clear IH.
    case_bool_decide as Hin.
    + rewrite Hskip in IH1, IH2 |- * by done. split; [done|].
      intros j. rewrite IH2. set_solver.
    + split.
      * rewrite IH1, Hdecl by done. rewrite <- app_assoc. do 2 f_equal.
        apply flat_map_ext_elem. intros j Hj.
        assert (j ∈ (step st i).2 <-> j ∈ st.2) as Hiff.
        { rewrite Hmark by done. set_solver. }
        repeat case_bool_decide; tauto.
      * intros j. rewrite IH2, Hmark by done. set_solver.
Qed.

Lemma autoRangeStep_columns trackedWidths (l : list Z) st :
  NoDup l ->
  (foldl (autoRangeStep trackedWidths) st l).1
    = st.1 ++ flat_map (fun i => if bool_decide (i ∈ st.2) then []
                                 else trackedDecl trackedWidths i) l
  /\ (forall j, j ∈ (foldl (autoRangeStep trackedWidths) st l).2
          <-> j ∈ st.2 \/ (j ∈ l /\ is_Some (trackedWidths !! j))).
Proof.
  apply (foldl_columns _ _ (fun i => is_Some (trackedWidths !! i))).
  - intros s i Hi. unfold Writer.autoRangeStep. by rewrite bool_decide_eq_true_2.
  - intros s i Hi. unfold Writer.autoRangeStep, Spec.trackedDecl.
    rewrite bool_decide_eq_false_2 by done.
    destruct (trackedWidths !! i); simpl; [done|by rewrite app_nil_r].
  - intros s i j Hi. unfold Writer.autoRangeStep.
    rewrite bool_decide_eq_false_2 by done.
    destruct (trackedWidths !! i) eqn:E; simpl.
    + rewrite elem_of_union, elem_of_singleton. rewrite is_Some_alt. naive_solver.
    + rewrite is_Some_alt. naive_solver.
Qed.

Lemma fallbackStep_columns defaultWidth trackedWidths (l : list Z) st :
  NoDup l ->
  (foldl (fallbackStep defaultWidth trackedWidths) st l).1
    = st.1 ++ flat_map (fun i => if bool_decide (i ∈ st.2) then []
                                 else columnDecl defaultWidth trackedWidths i) l
  /\ (forall j, j ∈ (foldl (fallbackStep defaultWidth trackedWidths) st l).2
          <-> j ∈ st.2
              \/ (j ∈ l /\ (is_Some (trackedWidths !! j) \/ is_Some defaultWidth))).
Proof.
  apply (foldl_columns _ _
           (fun i => is_Some (trackedWidths !! i) \/ is_Some defaultWidth)).
  - intros s i Hi. unfold Writer.fallbackStep. by rewrite bool_decide_eq_true_2.
  - intros s i Hi.
    unfold Writer.fallbackStep, Spec.columnDecl, Spec.trackedDecl, Spec.defaultDecl.
    rewrite bool_decide_eq_false_2 by done.
    destruct (trackedWidths !! i); simpl; [done|].
    destruct defaultWidth; simpl; [done|by rewrite app_nil_r].
  - intros s i j Hi. unfold Writer.fallbackStep.
    rewrite bool_decide_eq_false_2 by done. rewrite !is_Some_alt.
    destruct (trackedWidths !! i) eqn:E; simpl.
    + rewrite elem_of_union, elem_of_singleton. naive_solver.
    + destruct defaultWidth; simpl.
      * rewrite elem_of_union, elem_of_singleton. naive_solver.
      * naive_solver.
Qed.

(** The processed columns after an explicit-width range. *)
Lemma foldl_add_processed (l : list Z) (processed : gset Z) (j : Z) :
  j ∈ foldl (fun p i => {[i]} ∪ p) processed l <-> j ∈ processed \/ j ∈ l.
Proof.
  revert processed. induction l as [|i l IH]; intros processed; simpl.
  - set_solver.
  - rewrite IH. set_solver.
Qed.

(** *** One definition at a time *)

(** A definition for a column index that is already processed changes
    nothing. *)
Lemma processDefinition_duplicate maxColumnIndex trackedWidths st def (c : Z) :
  columnIndex def = Some c -> c ∈ st.2 ->
  processDefinition maxColumnIndex trackedWidths st def = st.
Proof.
  intros Hc Hin. unfold Writer.processDefinition. rewrite Hc.
  rewrite (bool_decide_eq_true_2 (c ∈ st.2)) by done.
  by rewrite andb_false_r.
Qed.

(** A definition for a fresh column index within the sheet that
    yields a width declares it and marks the column as processed. *)
Lemma processDefinition_assign maxColumnIndex trackedWidths st def (c : Z) (w : Number) :
  columnIndex def = Some c -> c <= maxColumnIndex -> c ∉ st.2 ->
  definitionWidth trackedWidths def c = Some w ->
  processDefinition maxColumnIndex trackedWidths st def = pushColumn st c w.
Proof.
  intros Hc Hle Hin Hw. unfold Writer.processDefinition. rewrite Hc.
  rewrite bool_decide_eq_true_2, bool_decide_eq_false_2 by done. simpl.
  unfold definitionWidth in Hw. by rewrite Hw.
Qed.

(** A definition for a column index that yields no width changes nothing. *)
Lemma processDefinition_no_width maxColumnIndex trackedWidths st def (c : Z) :
  columnIndex def = Some c -> definitionWidth trackedWidths def c = None ->
  processDefinition maxColumnIndex trackedWidths st def = st.
Proof.
  intros Hc Hw. unfold Writer.processDefinition. rewrite Hc.
  unfold definitionWidth in Hw. rewrite Hw. by destruct (_ && _).
Qed.

(** A definition for a column index beyond the last column changes nothing. *)
Lemma processDefinition_beyond maxColumnIndex trackedWidths st def (c : Z) :
  columnIndex def = Some c -> maxColumnIndex < c ->
  processDefinition maxColumnIndex trackedWidths st def = st.
Proof.
  intros Hc Hlt. unfold Writer.processDefinition. rewrite Hc.
  by rewrite bool_decide_eq_false_2 by lia.
Qed.

(** A range that does not meet the columns [0 .. maxColumnIndex]
    changes nothing; this covers every range with [from > to]. *)
Lemma processDefinition_empty_range maxColumnIndex trackedWidths st def (r : ColumnRange) :
  columnIndex def = None -> columnRange def = Some r ->
  Z.min maxColumnIndex (to r) < Z.max 0 (from r) ->
  processDefinition maxColumnIndex trackedWidths st def = st.
Proof.
  intros Hc Hr Hempty. unfold Writer.processDefinition. rewrite Hc, Hr.
  by rewrite bool_decide_eq_false_2 by lia.
Qed.

Lemma processDefinition_reversed_range maxColumnIndex trackedWidths st def (r : ColumnRange) :
  columnIndex def = None -> columnRange def = Some r -> to r < from r ->
  processDefinition maxColumnIndex trackedWidths st def = st.
Proof. intros Hc Hr Hrev. apply (processDefinition_empty_range _ _ _ _ r); [done..|lia]. Qed.

(** A range with an explicit width and without auto-detection
    declares its part within the sheet at once. *)
Lemma processDefinition_range_width maxColumnIndex trackedWidths st def
    (r : ColumnRange) (w : Number) :
  columnIndex def = None -> columnRange def = Some r ->
  width def = Some w -> truthy (autoDetect def) = false ->
  Z.max 0 (from r) <= Z.min maxColumnIndex (to r) ->
  let st' := processDefinition maxColumnIndex trackedWidths st def in
  st'.1 = st.1 ++ [colElement (Z.max 0 (from r) + 1) (Z.min maxColumnIndex (to r) + 1) w]
  /\ (forall j, j ∈ st'.2 <->
         j ∈ st.2 \/ Z.max 0 (from r) <= j <= Z.min maxColumnIndex (to r)).
Proof.
  intros Hc Hr Hw Hauto Hle st'. subst st'. unfold Writer.processDefinition.
  rewrite Hc, Hr, Hw, Hauto. rewrite bool_decide_eq_true_2 by done. simpl.
  split; [done|]. intros j. rewrite foldl_add_processed, elem_of_seqZ. intuition lia.
Qed.

(** *** The whole loop over the definitions *)

(** A column within the sheet that the definitions left unprocessed
    gets its declaration from the loop over the columns. *)
Lemma afterFallback_unprocessed maxColumnIndex defaultWidth defs trackedWidths (c : Z) :
  0 <= c <= maxColumnIndex ->
  c ∉ (afterDefinitions maxColumnIndex defs trackedWidths).2 ->
  forall x, x ∈ columnDecl defaultWidth trackedWidths c ->
            x ∈ (afterFallback maxColumnIndex defaultWidth defs trackedWidths).1.
Proof.
  intros Hc Hnot x Hx. unfold Writer.afterFallback.
  destruct (fallbackStep_columns defaultWidth trackedWidths
              (seqZ 0 (maxColumnIndex + 1))
              (afterDefinitions maxColumnIndex defs trackedWidths)
              (NoDup_seqZ _ _)) as [-> _].
  apply elem_of_app. right. apply list_elem_of_In, in_flat_map.
  exists c. split.
  - apply list_elem_of_In, elem_of_seqZ. lia.
  - rewrite bool_decide_eq_false_2 by done. by apply list_elem_of_In.
Qed.

(** C5: width precedence. With an explicit width [w] for column 2
    followed by an auto-detect range [0,3], on a sheet that has these
    columns: column 2 is declared with [w]; columns 0, 1 and 3 are
    declared with their tracked width when one was observed and with
    the default width otherwise (and not at all without a default).
    One definition at a time: a definition for an already processed
    column index is ignored, the first one to yield a width declares
    the column, and one that yields no width is skipped, the column
    being left to the loop over the columns. *)
Theorem width_precedence (maxColumnIndex : Z) defaultWidth trackedWidths
    (w : Number) (ad : option bool) (w' : option Number) :
  3 <= maxColumnIndex ->
  let column2 :=
    {| columnIndex := Some 2; columnRange := None; width := Some w; autoDetect := ad |} in
  let range03 :=
    {| columnIndex := None; columnRange := Some {| from := 0; to := 3 |};
       width := w'; autoDetect := Some true |} in
  let declarations :=
    [colElement 3 3 w]
    ++ trackedDecl trackedWidths 0 ++ trackedDecl trackedWidths 1
    ++ trackedDecl trackedWidths 3
    ++ defaultDecl defaultWidth trackedWidths 0 ++ defaultDecl defaultWidth trackedWidths 1
    ++ defaultDecl defaultWidth trackedWidths 3
    ++ flat_map (columnDecl defaultWidth trackedWidths) (seqZ 4 (maxColumnIndex - 3)) in
  colElements maxColumnIndex defaultWidth (Some [column2; range03]) trackedWidths
    = declarations
  /\ generateColsXml maxColumnIndex defaultWidth (Some [column2; range03]) trackedWidths
     = "<cols>" +:+ nl +:+ join nl declarations +:+ nl +:+ "  </cols>"
  /\ (forall st def c, columnIndex def = Some c -> c ∈ st.2 ->
        processDefinition maxColumnIndex trackedWidths st def = st)
  /\ (forall st def c x, columnIndex def = Some c -> c <= maxColumnIndex -> c ∉ st.2 ->
        definitionWidth trackedWidths def c = Some x ->
        processDefinition maxColumnIndex trackedWidths st def
          = (st.1 ++ [colElement (c + 1) (c + 1) x], {[c]} ∪ st.2))
  /\ (forall st def c, columnIndex def = Some c ->
        definitionWidth trackedWidths def c = None ->
        processDefinition maxColumnIndex trackedWidths st def = st)
  /\ (forall defs c, 0 <= c <= maxColumnIndex ->
        c ∉ (afterDefinitions maxColumnIndex defs trackedWidths).2 ->
        forall x, x ∈ columnDecl defaultWidth trackedWidths c ->
          x ∈ (afterFallback maxColumnIndex defaultWidth defs trackedWidths).1).
Proof.
  intros Hmax column2 range03 declarations.
  assert (Hels : colElements maxColumnIndex defaultWidth (Some [column2; range03])
                   trackedWidths = declarations).
  { unfold Writer.colElements, Writer.afterFallback, Writer.afterDefinitions.
    cbn [foldl].
    rewrite (processDefinition_assign _ _ _ column2 2 w) by (done || lia || apply not_elem_of_empty).
    assert (H0123 : forall j : Z, j ∈ [0; 1; 2; 3] <-> 0 <= j <= 3).
    { intros j. rewrite !elem_of_cons, elem_of_nil. lia. }
    set (st1 := pushColumn ([], ∅) 2 w).
    assert (Hin1 : forall j, j ∈ st1.2 <-> j = 2).
    { intros j. subst st1. unfold Writer.pushColumn. cbn [fst snd].
      rewrite elem_of_union, elem_of_singleton, elem_of_empty. tauto. }
    assert (Hst2 : processDefinition maxColumnIndex trackedWidths st1 range03
                   = foldl (autoRangeStep trackedWidths) st1 [0; 1; 2; 3]).
    { unfold Writer.processDefinition. simpl.
      rewrite Z.min_r by lia. by rewrite bool_decide_eq_true_2 by lia. }
    rewrite Hst2.
    destruct (autoRangeStep_columns trackedWidths [0; 1; 2; 3] st1) as [H1 H2].
    { apply (NoDup_seqZ 0 4). }
    set (st2 := foldl (autoRangeStep trackedWidths) st1 [0; 1; 2; 3]) in *.
    destruct (fallbackStep_columns defaultWidth trackedWidths
                (seqZ 0 (maxColumnIndex + 1)) st2 (NoDup_seqZ _ _)) as [H3 _].
    rewrite H3, H1.
    replace (maxColumnIndex + 1) with (4 + (maxColumnIndex - 3)) by lia.
    rewrite seqZ_app by lia. change (seqZ 0 4) with [0; 1; 2; 3].
    rewrite flat_map_app.
    rewrite (flat_map_ext_elem _ (columnDecl defaultWidth trackedWidths)
               (seqZ (0 + 4) (maxColumnIndex - 3))).
    2:{ intros j [Hj _]%elem_of_seqZ. rewrite bool_decide_eq_false_2; [done|].
        rewrite H2, Hin1, H0123. lia. }
    assert (Hdef : forall j, j = 0 \/ j = 1 \/ j = 3 ->
              (if bool_decide (j ∈ st2.2) then []
               else columnDecl defaultWidth trackedWidths j)
              = defaultDecl defaultWidth trackedWidths j).
    { intros j Hj. unfold Spec.columnDecl, Spec.trackedDecl, Spec.defaultDecl.
      destruct (trackedWidths !! j) eqn:E.
      - rewrite bool_decide_eq_true_2; [done|]. rewrite H2, E, H0123. right.
        split; [lia|done].
      - rewrite bool_decide_eq_false_2; [done|]. rewrite H2, E, Hin1.
        intros [->|[_ []%is_Some_None]]. lia. }
    cbn [flat_map].
    rewrite (bool_decide_eq_true_2 (2 ∈ st2.2)) by (rewrite H2, Hin1; by left).
    rewrite (bool_decide_eq_true_2 (2 ∈ st1.2)) by (by rewrite Hin1).
    rewrite !Hdef by lia.
    rewrite !bool_decide_eq_false_2 by (rewrite Hin1; lia).
    subst st1 declarations. unfold Writer.pushColumn. cbn [fst snd app].
    by rewrite ?app_nil_r, <- ?app_assoc. }
  split; [done|]. split.
  { unfold Writer.generateColsXml. rewrite Hels.
    rewrite bool_decide_eq_false_2 by lia. subst declarations. by cbn [app]. }
  split; [intros st def c; apply processDefinition_duplicate|].
  split; [intros st def c x; apply processDefinition_assign|].
  split; [intros st def c; apply processDefinition_no_width|].
  intros defs c. apply afterFallback_unprocessed.
Qed.

(** C10 (as amended): a definition for a column index beyond the last
    observed column declares nothing; a range with an explicit width
    and without auto-detection declares, at once, its intersection
    with the columns [0 .. maxColumnIndex], and nothing when that
    intersection is empty. *)
Theorem range_width_clamped (maxColumnIndex : Z) trackedWidths st def :
  (forall c, columnIndex def = Some c -> maxColumnIndex < c ->
     processDefinition maxColumnIndex trackedWidths st def = st)
  /\ (forall r w, columnIndex def = None -> columnRange def = Some r ->
        width def = Some w -> truthy (autoDetect def) = false ->
        let min := Z.max 0 (from r) in
        let max := Z.min maxColumnIndex (to r) in
        let st' := processDefinition maxColumnIndex trackedWidths st def in
        (min <= max ->
           st'.1 = st.1 ++ [colElement (min + 1) (max + 1) w]
           /\ (forall j, j ∈ st'.2 <-> j ∈ st.2 \/ min <= j <= max))
        /\ (max < min -> st' = st)).
Proof.
  split.
  - intros c. apply processDefinition_beyond.
  - intros r w Hc Hr Hw Hauto min max st'. split.
    + intros Hle. by apply processDefinition_range_width.
    + intros Hlt. by apply (processDefinition_empty_range _ _ _ _ r).
Qed.

(** Columns are only marked as processed together with a
    declaration: while [colElements] is empty, so is
    [processedColumns]. *)
Lemma foldl_preserves {A B} (P : A -> Prop) (f : A -> B -> A) (l : list B) (a : A) :
  (forall a x, P a -> P (f a x)) -> P a -> P (foldl f a l).
Proof. intros Hf. revert a. induction l as [|x l IH]; intros a Ha; simpl; auto. Qed.

Lemma pushColumn_not_empty st (i : Z) (w : Number) : (pushColumn st i w).1 <> [].
Proof. unfold Writer.pushColumn. simpl. by intros [_ ?]%app_eq_nil. Qed.

Lemma autoRangeStep_marks trackedWidths st (i : Z) :
  (st.1 = [] -> st.2 = ∅) ->
  (autoRangeStep trackedWidths st i).1 = [] -> (autoRangeStep trackedWidths st i).2 = ∅.
Proof.
  intros Hst. unfold Writer.autoRangeStep.
  case_bool_decide; [done|]. destruct (trackedWidths !! i); [|done].
  intros Hnil. by apply pushColumn_not_empty in Hnil.
Qed.

Lemma processDefinition_marks maxColumnIndex trackedWidths st def :
  (st.1 = [] -> st.2 = ∅) ->
  (processDefinition maxColumnIndex trackedWidths st def).1 = [] ->
  (processDefinition maxColumnIndex trackedWidths st def).2 = ∅.
Proof.
  intros Hst. unfold Writer.processDefinition.
  destruct (columnIndex def) as [c|].
  - destruct (_ && _); [|done].
    destruct (match width def with Some _ => _ | None => _ end); [|done].
    intros Hnil. by apply pushColumn_not_empty in Hnil.
  - destruct (columnRange def) as [r|]; [|done].
    case_bool_decide; [|done].
    destruct (truthy (autoDetect def)).
    + apply (foldl_preserves (fun s => s.1 = [] -> s.2 = ∅)); [|done].
      intros s i. apply autoRangeStep_marks.
    + destruct (width def); [|done]. simpl. by intros [_ ?]%app_eq_nil.
Qed.

Lemma afterDefinitions_marks maxColumnIndex defs trackedWidths :
  (afterDefinitions maxColumnIndex defs trackedWidths).1 = [] ->
  (afterDefinitions maxColumnIndex defs trackedWidths).2 = ∅.
Proof.
  unfold Writer.afterDefinitions. destruct defs as [ds|]; [|done].
  apply (foldl_preserves (fun s => s.1 = [] -> s.2 = ∅)); [|done].
  intros s def. apply processDefinition_marks.
Qed.

(** With a default width and at least one column, the loop over the
    columns always leaves a declaration: the test [colElements.length
    === 0] of line 206 cannot succeed. *)
Lemma afterFallback_not_empty maxColumnIndex (d : Number) defs trackedWidths :
  0 <= maxColumnIndex ->
  (afterFallback maxColumnIndex (Some d) defs trackedWidths).1 <> [].
Proof.
  intros Hmax Hnil.
  destruct (fallbackStep_columns (Some d) trackedWidths (seqZ 0 (maxColumnIndex + 1))
              (afterDefinitions maxColumnIndex defs trackedWidths)
              (NoDup_seqZ _ _)) as [H1 _].
  unfold Writer.afterFallback in Hnil. rewrite Hnil in H1.
  symmetry in H1. apply app_eq_nil in H1 as [Hdefs Hflat].
  apply afterDefinitions_marks in Hdefs.
  rewrite seqZ_cons in Hflat by lia. simpl in Hflat.
  apply app_eq_nil in Hflat as [H0 _].
  rewrite bool_decide_eq_false_2 in H0.
  - unfold Spec.columnDecl, Spec.trackedDecl, Spec.defaultDecl in H0.
    by destruct (trackedWidths !! 0).
  - rewrite Hdefs. apply not_elem_of_empty.
Qed.

(** Hence the single declaration of line 207 is never produced. *)
Lemma colElements_no_spanning_default maxColumnIndex defaultWidth defs trackedWidths :
  0 <= maxColumnIndex ->
  colElements maxColumnIndex defaultWidth defs trackedWidths
    = (afterFallback maxColumnIndex defaultWidth defs trackedWidths).1.
Proof.
  intros Hmax. unfold Writer.colElements.
  destruct defaultWidth as [d|]; [|by destruct (afterFallback _ _ _ _).1].
  pose proof (afterFallback_not_empty maxColumnIndex d defs trackedWidths Hmax) as Hne.
  by destruct (afterFallback _ _ _ _).1.
Qed.

End Columns.

(** ** The properties at concrete inputs *)

Import Run.

Example serializeRow_end_to_end :
  (Sample.serializeRow exampleRow None None).1
  = "<row r=" +:+ quoted "3" +:+ " spans=" +:+ quoted "1:4" +:+ ">"
    +:+ "<c r=" +:+ quoted "A3" +:+ " s=" +:+ quoted "0" +:+ " t=" +:+ quoted "inlineStr"
    +:+ "><is><t>Name</t></is></c>"
    +:+ "<c r=" +:+ quoted "B3" +:+ " s=" +:+ quoted "0" +:+ "><v>42</v></c>"
    +:+ "<c r=" +:+ quoted "D3" +:+ " s=" +:+ quoted "0" +:+ " t=" +:+ quoted "b"
    +:+ "><v>1</v></c>"
    +:+ "</row>".
Proof. vm_compute. reflexivity. Qed.

Lemma fast_path_equals_slow_path_witness :
  let tr := newColumnWidthTracker false in
  slowPath numToString Sample.resolve Sample.escape Sample.cellWidth Z.max
    [exampleRow; sparseRow] None None true false tr
  = fastPath numToString Sample.resolve Sample.escape Sample.cellWidth Z.max
      [exampleRow; sparseRow] None None tr.
Proof.
  exact (proj1 (fast_path_equals_slow_path numToString Sample.resolve Sample.escape
                  Sample.cellWidth Z.max [exampleRow; sparseRow] None None true
                  eq_refl eq_refl eq_refl)).
Defined.

Lemma serializeRow_span_witness :
  (Sample.serializeRow sparseRow None None).1
  = "<row r=" +:+ quoted "2" +:+ " spans=" +:+ quoted "2:4" +:+ ">"
    +:+ "<c r=" +:+ quoted "B2" +:+ " s=" +:+ quoted "0" +:+ " t=" +:+ quoted "inlineStr"
    +:+ "><is><t>a</t></is></c>"
    +:+ "<c r=" +:+ quoted "D2" +:+ " s=" +:+ quoted "0" +:+ "><v>7</v></c>"
    +:+ "</row>".
Proof.
  etrans.
  - apply (serializeRow_span numToString Sample.resolve Sample.escape Sample.cellWidth
             Z.max sparseRow None None [1; 3]%nat 1%nat 3%nat).
    + repeat constructor.
    + intros j. rewrite !elem_of_cons, elem_of_nil. split.
      * intros [->|[->|[]]]; eexists; reflexivity.
      * intros [c Hc]. do 5 (destruct j as [|j]; [simpl in Hc; try discriminate; lia|]).
        discriminate.
    + reflexivity.
    + reflexivity.
  - vm_compute. reflexivity.
Defined.

Lemma serializeCell_shapes_witness :
  serializeCell numToString Sample.resolve Sample.escape
    {| value := VBoolean true; type := None |} 3 3 None
  = "<c r=" +:+ quoted "D3" +:+ " s=" +:+ quoted "0" +:+ " t=" +:+ quoted "b"
    +:+ "><v>1</v></c>".
Proof.
  etrans.
  - apply (proj1 (proj2 (proj2 (serializeCell_shapes numToString Sample.resolve
             Sample.escape {| value := VBoolean true; type := None |} 3 3 None))));
      discriminate.
  - vm_compute. reflexivity.
Defined.

Lemma serializeRow_no_present_cells_witness :
  (Sample.serializeRow emptyRow None None).1
  = "<row r=" +:+ quoted "1" +:+ " spans=" +:+ quoted "1:1" +:+ "></row>".
Proof.
  etrans.
  - apply (serializeRow_no_present_cells numToString Sample.resolve Sample.escape
             Sample.cellWidth Z.max emptyRow None None).
    repeat constructor.
  - vm_compute. reflexivity.
Defined.

Lemma width_precedence_witness :
  3 <= 4
  /\ colElements numToString 4 (Some 9)
       (Some [definitionFor 2 (Some 20) None; definitionForRange 0 3 None (Some true)])
       {[0 := 5; 4 := 7]}
     = [colElement numToString 3 3 20; colElement numToString 1 1 5;
        colElement numToString 2 2 9; colElement numToString 4 4 9;
        colElement numToString 5 5 7].
Proof.
  assert (H : 3 <= 4) by lia. split; [exact H|].
  etrans.
  - exact (proj1 (width_precedence numToString 4 (Some 9) {[0 := 5; 4 := 7]} 20 None None H)).
  - vm_compute. reflexivity.
Defined.

(** C5, counterexample: the definitions are processed in the order of
    the list. When the auto-detect range [0,3] comes first and a width
    of 7 was tracked for column 2, column 2 is declared with 7 and the
    later explicit width 20 is ignored. And on a sheet whose last
    column index is 1, columns 2 and 3 are not declared at all. *)
Lemma width_precedence_order_counterexample :
  let column2 := definitionFor 2 (Some 20) None in
  let range03 := definitionForRange 0 3 None (Some true) in
  colElements numToString 3 (Some 9) (Some [range03; column2]) {[2 := 7]}
  = [colElement numToString 3 3 7; colElement numToString 1 1 9;
     colElement numToString 2 2 9; colElement numToString 4 4 9]
  /\ (colElement numToString 3 3 20
       ∉ colElements numToString 3 (Some 9) (Some [range03; column2]) {[2 := 7]})
  /\ colElements numToString 1 (Some 9) (Some [column2; range03]) ∅
     = [colElement numToString 1 1 9; colElement numToString 2 2 9].
Proof.
  vm_compute. repeat split; try reflexivity.
  intros H. repeat (apply elem_of_cons in H as [H|H]; [discriminate H|]).
  by apply elem_of_nil in H.
Qed.

(** C10, counterexample: a range with an explicit width on which
    auto-detection is set as well is not declared as one range. With
    no tracked width nothing is declared for it, and with a tracked
    width for column 0 that column alone is declared, with the tracked
    width. *)
Lemma range_width_autoDetect_counterexample :
  let def := definitionForRange 0 1 (Some 20) (Some true) in
  (processDefinition numToString 1 ∅ ([], ∅) def).1 = []
  /\ (processDefinition numToString 1 ∅ ([], ∅) def).1 <> [colElement numToString 1 2 20]
  /\ (processDefinition numToString 1 {[0 := 5]} ([], ∅) def).1
     = [colElement numToString 1 1 5]
  /\ Sample.generateColsXml 1 None (Some [def]) ∅ = "".
Proof. vm_compute. repeat split; try reflexivity. discriminate. Qed.

Lemma range_width_clamped_witness :
  (processDefinition numToString 2 ∅ ([], ∅) (definitionForRange (-4) 7 (Some 20) None)).1
  = [colElement numToString 1 3 20]
  /\ processDefinition numToString 2 ∅ ([], ∅) (definitionForRange 5 7 (Some 20) None)
     = ([], ∅)
  /\ processDefinition numToString 2 ∅ ([], ∅) (definitionFor 3 (Some 20) None) = ([], ∅).
Proof.
  destruct (range_width_clamped numToString 2 ∅ ([], ∅)
              (definitionForRange (-4) 7 (Some 20) None)) as [_ H1].
  destruct (H1 {| from := -4; to := 7 |} 20 eq_refl eq_refl eq_refl eq_refl) as [H1' _].
  destruct (range_width_clamped numToString 2 ∅ ([], ∅)
              (definitionForRange 5 7 (Some 20) None)) as [_ H2].
  destruct (H2 {| from := 5; to := 7 |} 20 eq_refl eq_refl eq_refl eq_refl) as [_ H2'].
  destruct (range_width_clamped numToString 2 ∅ ([], ∅)
              (definitionFor 3 (Some 20) None)) as [H3 _].
  split; [|split].
  - exact (proj1 (H1' ltac:(simpl; lia))).
  - exact (H2' ltac:(simpl; lia)).
  - exact (H3 3 eq_refl ltac:(lia)).
Defined.

(** With a default width of 10, two observed columns and nothing
    declared by the definitions or by tracked widths, the loop over
    the columns declares each column on its own. The same happens
    through [writeSheetXml] when the only definition lies beyond the
    last column. *)
Example default_width_declared_per_column :
  Sample.generateColsXml 1 (Some 10) None ∅
  = "<cols>" +:+ nl +:+ col "1" "1" "10" +:+ nl +:+ col "2" "2" "10" +:+ nl +:+ "  </cols>"
  /\ Sample.generateColsXml 1 (Some 10) None ∅
     <> "<cols>" +:+ nl +:+ col "1" "2" "10" +:+ nl +:+ "  </cols>"
  /\ Sample.writeSheetXml
       [{| cells := [Sample.cell (VNumber 1); Sample.cell (VNumber 2)];
           rowIndex := Some 1 |}]
       (widthOptions (Some [definitionFor 5 (Some 20) None]) (Some 10))
     = [prolog;
        "    <sheetFormatPr defaultColWidth=" +:+ quoted "10" +:+ "/>";
        "<cols>" +:+ nl +:+ col "1" "1" "10" +:+ nl +:+ col "2" "2" "10" +:+ nl +:+ "  </cols>";
        "<sheetData>";
        "<row r=" +:+ quoted "1" +:+ " spans=" +:+ quoted "1:2" +:+ ">"
          +:+ "<c r=" +:+ quoted "A1" +:+ " s=" +:+ quoted "0" +:+ "><v>1</v></c>"
          +:+ "<c r=" +:+ quoted "B1" +:+ " s=" +:+ quoted "0" +:+ "><v>2</v></c>"
          +:+ "</row>";
        "</sheetData></worksheet>"].
Proof. vm_compute. repeat split; try reflexivity. discriminate. Qed.

(** C7: a definition with the negative column index -1 and an
    explicit width is not skipped: it is declared, as column 0 in the
    1-based numbering of the document. *)
Theorem negative_columnIndex_declared :
  Sample.generateColsXml 0 None (Some [definitionFor (-1) (Some 10) None]) ∅
  = "<cols>" +:+ nl +:+ col "0" "0" "10" +:+ nl +:+ "  </cols>"
  /\ Sample.writeSheetXml
       [{| cells := [Sample.cell (VNumber 1)]; rowIndex := Some 1 |}]
       (widthOptions (Some [definitionFor (-1) (Some 10) None]) None)
     = [prolog;
        "<cols>" +:+ nl +:+ col "0" "0" "10" +:+ nl +:+ "  </cols>";
        "<sheetData>";
        "<row r=" +:+ quoted "1" +:+ " spans=" +:+ quoted "1:1" +:+ ">"
          +:+ "<c r=" +:+ quoted "A1" +:+ " s=" +:+ quoted "0" +:+ "><v>1</v></c>"
          +:+ "</row>";
        "</sheetData></worksheet>"].
Proof. vm_compute. repeat split; reflexivity. Qed.

(** ** More on the column letters *)

Lemma letterLoop_step (n : Z) (result : string) :
  0 < n ->
  letterLoop n result
  = letterLoop ((n - 1) `div` 26) (String (fromCharCode (65 + (n - 1) `rem` 26)) result).
Proof.
  intros Hn. rewrite letterLoop_equation_1. destruct (decide (0 < n)); [done|lia].
Qed.

Lemma letterLoop_stop (n : Z) (result : string) : n <= 0 -> letterLoop n result = result.
Proof.
  intros Hn. rewrite letterLoop_equation_1. destruct (decide (0 < n)); [lia|done].
Qed.

Lemma fromCharCode_letterDigit (c : ascii) :
  1 <= letterDigit c <= 26 -> fromCharCode (64 + letterDigit c) = c.
Proof.
  intros Hc. unfold letterDigit, fromCharCode in *.
  replace (Z.to_N (64 + (Z.of_N (N_of_ascii c) - 64))) with (N_of_ascii c) by lia.
  apply ascii_N_embedding.
Qed.

(** Reading a digit string and writing the number back prepends the
    string. *)
Lemma letterLoop_letterValueFrom (s result : string) (n : Z) :
  0 <= n -> allLetters s = true ->
  letterLoop (letterValueFrom n s) result = letterLoop n (s +:+ result).
Proof.
  revert n. induction s as [|c s IH]; intros n Hn Hs; [done|].
  simpl in Hs. apply andb_true_iff in Hs as [Hc%bool_decide_eq_true Hs].
  simpl. rewrite IH by (done || lia).
  rewrite letterLoop_step by lia.
  replace (n * 26 + letterDigit c - 1) with (letterDigit c - 1 + n * 26) by lia.
  rewrite Z.div_add, Z.rem_mod_nonneg, Z.mod_add, Z.div_small, Z.mod_small by lia.
  replace (65 + (letterDigit c - 1)) with (64 + letterDigit c) by lia.
  rewrite fromCharCode_letterDigit by done.
  by rewrite Z.add_0_l.
Qed.

Lemma letterValueFrom_bounds (s : string) (n : Z) :
  allLetters s = true ->
  let k := String.length s in
  n * 26 ^ Z.of_nat k + geometric26 k <= letterValueFrom n s
  /\ letterValueFrom n s <= n * 26 ^ Z.of_nat k + 26 * geometric26 k.
Proof.
  revert n. induction s as [|c s IH]; intros n Hs; simpl.
  - lia.
  - simpl in Hs. apply andb_true_iff in Hs as [Hc%bool_decide_eq_true Hs].
    destruct (IH (n * 26 + letterDigit c) Hs) as [Hlo Hhi]. cbv zeta in *.
    rewrite Nat2Z.inj_succ, Z.pow_succ_r by lia.
    set (p := 26 ^ Z.of_nat (String.length s)) in *.
    assert (0 < p) by (apply Z.pow_pos_nonneg; lia).
    set (g := geometric26 (String.length s)) in *.
    assert (25 * g + 1 = p) as Hg.
    { subst g p. clear. induction (String.length s) as [|k IHk]; [done|].
      rewrite Nat2Z.inj_succ, Z.pow_succ_r by lia. simpl geometric26. lia. }
    split; nia.
Qed.

(** X1: every string of the letters [A] .. [Z] is the letter form of
    exactly the index it denotes in bijective base 26: writing
    [letterValue s - 1] gives [s] back. Together with the other
    direction this makes [columnIndexToLetter] a bijection between the
    indices from 0 on and the non-empty letter strings. *)
Theorem columnIndexToLetter_letterValue (s : string) :
  allLetters s = true ->
  columnIndexToLetter (letterValue s - 1) = s
  /\ (s <> "" -> 0 <= letterValue s - 1).
Proof.
  intros Hs. split.
  - unfold columnIndexToLetter, letterValue.
    replace (letterValueFrom 0 s - 1 + 1) with (letterValueFrom 0 s) by lia.
    rewrite letterLoop_letterValueFrom by (done || lia).
    rewrite letterLoop_stop by lia. apply append_nil_r.
  - intros Hne. unfold letterValue.
    destruct (letterValueFrom_bounds s 0 Hs) as [Hlo _]. cbv zeta in Hlo.
    destruct s as [|c s]; [done|]. simpl String.length in Hlo.
    simpl geometric26 in Hlo.
    assert (0 <= geometric26 (String.length s)).
    { clear. induction (String.length s); simpl; lia. }
    lia.
Qed.

Lemma columnIndexToLetter_letterValue_witness :
  allLetters "XFD" = true
  /\ columnIndexToLetter (letterValue "XFD" - 1) = "XFD"
  /\ letterValue "XFD" - 1 = 16383.
Proof.
  assert (H : allLetters "XFD" = true) by reflexivity.
  split; [exact H|]. split.
  - exact (proj1 (columnIndexToLetter_letterValue "XFD" H)).
  - reflexivity.
Defined.

(** X2: the letter form is empty exactly for the negative numbers;
    every column index from 0 on gets at least one letter. *)
Theorem columnIndexToLetter_empty (i : Z) :
  columnIndexToLetter i = "" <-> i < 0.
Proof.
  unfold columnIndexToLetter. split.
  - intros Hempty. destruct (decide (i < 0)) as [|Hge]; [done|].
    pose proof (letterLoop_value (i + 1) "" ltac:(lia)) as Hv.
    rewrite Hempty in Hv. simpl in Hv. unfold letterValue in Hv. simpl in Hv. lia.
  - intros Hneg. apply letterLoop_stop. lia.
Qed.

(** X3: the number of letters of a column index: the letter form of
    [i] has [n] letters exactly when [i + 1] lies between
    [1 + 26 + ... + 26^(n-1)] and [26 + ... + 26^n]; so one letter up
    to index 25, two up to 701, three up to 18277. *)
Theorem columnIndexToLetter_length (i : Z) :
  0 <= i ->
  let n := String.length (columnIndexToLetter i) in
  geometric26 n <= i + 1 < geometric26 (S n).
Proof.
  intros Hi n.
  assert (Hv : letterValue (columnIndexToLetter i) = i + 1).
  { unfold columnIndexToLetter. by rewrite letterLoop_value by lia. }
  assert (Hl : allLetters (columnIndexToLetter i) = true).
  { unfold columnIndexToLetter. by apply letterLoop_letters; [lia|]. }
  destruct (letterValueFrom_bounds (columnIndexToLetter i) 0 Hl) as [Hlo Hhi].
  fold (letterValue (columnIndexToLetter i)) in Hlo, Hhi. rewrite Hv in Hlo, Hhi.
  cbv zeta in Hlo, Hhi. fold n in Hlo, Hhi. simpl geometric26. lia.
Qed.

Lemma columnIndexToLetter_length_witness :
  0 <= 701
  /\ geometric26 (String.length (columnIndexToLetter 701)) <= 701 + 1
       < geometric26 (S (String.length (columnIndexToLetter 701)))
  /\ String.length (columnIndexToLetter 701) = 2%nat.
Proof.
  assert (H : 0 <= 701) by lia.
  split; [exact H|]. split; [exact (columnIndexToLetter_length 701 H)|reflexivity].
Defined.

(** The decimal form of an integer starts with a digit or a minus
    sign, never with a letter. *)
Lemma pretty_N_char_notLetter (x : N) : notLetter (pretty_N_char x).
Proof.
  unfold notLetter, pretty_N_char, letterDigit.
  repeat case_match; simpl; lia.
Qed.

Lemma pretty_N_go_startsOffLetters (x : N) (s : string) :
  startsOffLetters s -> startsOffLetters (pretty_N_go x s).
Proof.
  revert s. induction (N.lt_wf_0 x) as [x _ IH]; intros s Hs.
  destruct (decide (x = 0)%N) as [->|Hx]; [by rewrite pretty_N_go_0|].
  rewrite pretty_N_go_step by lia.
  apply IH; [apply N.div_lt; lia|]. apply pretty_N_char_notLetter.
Qed.

Lemma pretty_N_go_pos_startsOffLetters (x : N) :
  (0 < x)%N -> startsOffLetters (pretty_N_go x "").
Proof.
  intros Hx. rewrite pretty_N_go_step by done.
  apply pretty_N_go_startsOffLetters, pretty_N_char_notLetter.
Qed.

Lemma numToString_startsOffLetters (n : Z) : startsOffLetters (numToString n).
Proof.
  unfold numToString, pretty, pretty_Z. destruct n as [|p|p].
  - simpl. unfold notLetter, letterDigit. simpl. lia.
  - unfold pretty, pretty_positive, pretty, pretty_N. simpl.
    by apply pretty_N_go_pos_startsOffLetters.
  - simpl. unfold notLetter, letterDigit. simpl. lia.
Qed.

(** Letters followed by a text that starts off the letters split in
    one way only. *)
Lemma letters_then_rest_inj (l1 l2 r1 r2 : string) :
  allLetters l1 = true -> allLetters l2 = true ->
  startsOffLetters r1 -> startsOffLetters r2 ->
  l1 +:+ r1 = l2 +:+ r2 -> l1 = l2 /\ r1 = r2.
Proof.
  revert l2. induction l1 as [|c1 l1 IH]; intros [|c2 l2] H1 H2 Hr1 Hr2 Heq.
  - done.
  - simpl in H2. apply andb_true_iff in H2 as [Hc%bool_decide_eq_true _].
    change (r1 = String c2 (l2 +:+ r2)) in Heq. subst r1. by destruct Hr1.
  - simpl in H1. apply andb_true_iff in H1 as [Hc%bool_decide_eq_true _].
    change (String c1 (l1 +:+ r1) = r2) in Heq. subst r2. by destruct Hr2.
  - simpl in H1, H2.
    apply andb_true_iff in H1 as [_ H1]. apply andb_true_iff in H2 as [_ H2].
    change (String c1 (l1 +:+ r1) = String c2 (l2 +:+ r2)) in Heq.
    injection Heq as -> Heq. destruct (IH l2 H1 H2 Hr1 Hr2 Heq) as [-> ->]. done.
Qed.

(** X4: cell references are unambiguous: two cells have the same
    reference only if they are in the same row and the same column. *)
Theorem getCellReference_inj (row1 col1 row2 col2 : Z) :
  0 <= col1 -> 0 <= col2 ->
  getCellReference row1 col1 = getCellReference row2 col2 ->
  row1 = row2 /\ col1 = col2.
Proof.
  intros H1 H2 Heq. unfold getCellReference in Heq.
  apply letters_then_rest_inj in Heq as [Hcol Hrow];
    try (unfold columnIndexToLetter; apply letterLoop_letters; [lia|done]);
    try apply numToString_startsOffLetters.
  split.
  - unfold numToString in Hrow. by apply (inj pretty) in Hrow.
  - apply (f_equal letterValue) in Hcol. unfold columnIndexToLetter in Hcol.
    rewrite !letterLoop_value in Hcol by lia. simpl in Hcol. lia.
Qed.

Lemma getCellReference_inj_witness :
  0 <= 27 /\ 0 <= 27
  /\ (getCellReference 3 27 = getCellReference 3 27 -> 3 = 3 /\ 27 = 27)
  /\ getCellReference 3 27 = "AB3".
Proof.
  assert (H : 0 <= 27) by lia.
  split; [exact H|]. split; [exact H|]. split.
  - exact (getCellReference_inj 3 27 3 27 H H).
  - reflexivity.
Defined.

(** ** More on the width declarations *)

Section MoreColumns.

Context {Number : Type}.
Variable Number_toString : Number -> string.

Local Abbreviation colElement := (colElement Number_toString).
Local Abbreviation pushColumn := (pushColumn Number_toString).
Local Abbreviation autoRangeStep := (autoRangeStep Number_toString).
Local Abbreviation processDefinition := (processDefinition Number_toString).
Local Abbreviation fallbackStep := (fallbackStep Number_toString).
Local Abbreviation afterDefinitions := (afterDefinitions Number_toString).
Local Abbreviation afterFallback := (afterFallback Number_toString).
Local Abbreviation colElements := (colElements Number_toString).
Local Abbreviation generateColsXml := (generateColsXml Number_toString).
Local Abbreviation trackedDecl := (trackedDecl Number_toString).
Local Abbreviation columnDecl := (columnDecl Number_toString).
Local Abbreviation covers := (covers Number_toString).
Local Abbreviation sound := (sound Number_toString).

Implicit Types (st : @ColsState) (def : @ColumnWidthDefinition Number)
  (trackedWidths : gmap Z Number) (defaultWidth : option Number).

Lemma foldl_preserves_elem {A B} (P : A -> Prop) (f : A -> B -> A) (l : list B) (a : A) :
  (forall a x, x ∈ l -> P a -> P (f a x)) -> P a -> P (foldl f a l).
Proof.
  revert a. induction l as [|x l IH]; intros a Hf Ha; simpl; [done|].
  apply IH.
  - intros b y Hy. apply Hf. by apply list_elem_of_further.
  - apply Hf; [apply list_elem_of_here|done].
Qed.

(** *** Every processed column is covered by a declaration *)

Lemma covers_app els more (c : Z) : covers els c -> covers (els ++ more) c.
Proof.
  intros (mn & mx & w & Hin & Hc). exists mn, mx, w. split; [|done].
  apply elem_of_app. by left.
Qed.

Lemma pushColumn_covered st (i : Z) (w : Number) :
  (forall c, c ∈ st.2 -> covers st.1 c) ->
  forall c, c ∈ (pushColumn st i w).2 -> covers (pushColumn st i w).1 c.
Proof.
  intros Hst c. unfold Writer.pushColumn. cbn [fst snd].
  rewrite elem_of_union, elem_of_singleton. intros [->|Hc].
  - exists (i + 1), (i + 1), w. split; [|lia].
    apply elem_of_app. right. apply list_elem_of_here.
  - by apply covers_app, Hst.
Qed.

Lemma autoRangeStep_covered trackedWidths st (i : Z) :
  (forall c, c ∈ st.2 -> covers st.1 c) ->
  forall c, c ∈ (autoRangeStep trackedWidths st i).2 ->
            covers (autoRangeStep trackedWidths st i).1 c.
Proof.
  intros Hst. unfold Writer.autoRangeStep.
  case_bool_decide; [done|]. destruct (trackedWidths !! i); [|done].
  by apply pushColumn_covered.
Qed.

Lemma fallbackStep_covered defaultWidth trackedWidths st (i : Z) :
  (forall c, c ∈ st.2 -> covers st.1 c) ->
  forall c, c ∈ (fallbackStep defaultWidth trackedWidths st i).2 ->
            covers (fallbackStep defaultWidth trackedWidths st i).1 c.
Proof.
  intros Hst. unfold Writer.fallbackStep.
  case_bool_decide; [done|].
  destruct (trackedWidths !! i); [by apply pushColumn_covered|].
  destruct defaultWidth; [by apply pushColumn_covered|done].
Qed.

Lemma processDefinition_covered maxColumnIndex trackedWidths st def :
  (forall c, c ∈ st.2 -> covers st.1 c) ->
  forall c, c ∈ (processDefinition maxColumnIndex trackedWidths st def).2 ->
            covers (processDefinition maxColumnIndex trackedWidths st def).1 c.
Proof.
  intros Hst. unfold Writer.processDefinition.
  destruct (columnIndex def) as [i|].
  - destruct (_ && _); [|done].
    destruct (match width def with Some _ => _ | None => _ end); [|done].
    by apply pushColumn_covered.
  - destruct (columnRange def) as [r|]; [|done].
    case_bool_decide; [|done].
    destruct (truthy (autoDetect def)).
    + apply (foldl_preserves (fun s => forall c, c ∈ s.2 -> covers s.1 c)); [|done].
      intros s i. apply autoRangeStep_covered.
    + destruct (width def) as [w|]; [|done]. cbn [fst snd]. intros c.
      rewrite foldl_add_processed, elem_of_seqZ. intros [Hc|Hc].
      * by apply covers_app, Hst.
      * eexists _, _, w. split; [apply elem_of_app; right; apply list_elem_of_here|lia].
Qed.

Lemma afterFallback_covered maxColumnIndex defaultWidth defs trackedWidths (c : Z) :
  c ∈ (afterFallback maxColumnIndex defaultWidth defs trackedWidths).2 ->
  covers (afterFallback maxColumnIndex defaultWidth defs trackedWidths).1 c.
Proof.
  revert c. unfold Writer.afterFallback.
  apply (foldl_preserves (fun s => forall c, c ∈ s.2 -> covers s.1 c)).
  { intros s i. apply fallbackStep_covered. }
  unfold Writer.afterDefinitions. destruct defs as [ds|].
  - apply (foldl_preserves (fun s => forall c, c ∈ s.2 -> covers s.1 c)).
    + intros s def. apply processDefinition_covered.
    + intros c Hc. by apply elem_of_empty in Hc.
  - intros c Hc. by apply elem_of_empty in Hc.
Qed.

(** X5: no column of the sheet is left without a width when one is
    available: every column from 0 to [maxColumnIndex] for which a
    width was tracked, and every such column at all when a default
    width is configured, lies within the span of some declaration. *)
Theorem colElements_cover (maxColumnIndex : Z) defaultWidth defs trackedWidths (c : Z) :
  0 <= c <= maxColumnIndex ->
  is_Some (trackedWidths !! c) \/ is_Some defaultWidth ->
  covers (colElements maxColumnIndex defaultWidth defs trackedWidths) c.
Proof.
  intros Hc Havail.
  rewrite colElements_no_spanning_default by lia.
  apply afterFallback_covered. unfold Writer.afterFallback.
  destruct (fallbackStep_columns Number_toString defaultWidth trackedWidths
              (seqZ 0 (maxColumnIndex + 1))
              (afterDefinitions maxColumnIndex defs trackedWidths)
              (NoDup_seqZ _ _)) as [_ Hin].
  apply Hin. right. split; [|done]. apply elem_of_seqZ. lia.
Qed.

(** *** Every declaration is for columns of the sheet *)

Lemma pushColumn_sound maxColumnIndex defaultWidth (ds : list ColumnWidthDefinition)
    trackedWidths st (i : Z) (w : Number) :
  0 <= i <= maxColumnIndex ->
  knownWidth defaultWidth ds trackedWidths w ->
  Forall (sound maxColumnIndex defaultWidth ds trackedWidths) st.1 ->
  Forall (sound maxColumnIndex defaultWidth ds trackedWidths) (pushColumn st i w).1.
Proof.
  intros Hi Hw Hst. unfold Writer.pushColumn. cbn [fst].
  apply Forall_app. split; [done|]. apply Forall_singleton.
  exists (i + 1), (i + 1), w. repeat split; (done || lia).
Qed.

Lemma autoRangeStep_sound maxColumnIndex defaultWidth (ds : list ColumnWidthDefinition)
    trackedWidths st (i : Z) :
  0 <= i <= maxColumnIndex ->
  Forall (sound maxColumnIndex defaultWidth ds trackedWidths) st.1 ->
  Forall (sound maxColumnIndex defaultWidth ds trackedWidths)
    (autoRangeStep trackedWidths st i).1.
Proof.
  intros Hi Hst. unfold Writer.autoRangeStep.
  case_bool_decide; [done|]. destruct (trackedWidths !! i) as [w|] eqn:E; [|done].
  apply pushColumn_sound; [done| |done]. right. left. by exists i.
Qed.

Lemma processDefinition_sound maxColumnIndex defaultWidth (ds : list ColumnWidthDefinition)
    trackedWidths st def :
  def ∈ ds ->
  (forall c, columnIndex def = Some c -> 0 <= c) ->
  Forall (sound maxColumnIndex defaultWidth ds trackedWidths) st.1 ->
  Forall (sound maxColumnIndex defaultWidth ds trackedWidths)
    (processDefinition maxColumnIndex trackedWidths st def).1.
Proof.
  intros Hdef Hnonneg Hst. unfold Writer.processDefinition.
  destruct (columnIndex def) as [i|].
  - destruct (bool_decide (i <= maxColumnIndex)) eqn:Hle; [|done].
    apply bool_decide_eq_true in Hle. destruct (negb _); [|done]. simpl.
    destruct (width def) as [w|] eqn:Hw.
    + apply pushColumn_sound; [by specialize (Hnonneg i eq_refl); lia| |done].
      left. by exists def.
    + destruct (truthy (autoDetect def)); [|done].
      destruct (trackedWidths !! i) as [w|] eqn:E; [|done].
      apply pushColumn_sound; [by specialize (Hnonneg i eq_refl); lia| |done].
      right. left. by exists i.
  - destruct (columnRange def) as [r|]; [|done].
    case_bool_decide as Hle; [|done].
    destruct (truthy (autoDetect def)).
    + apply (foldl_preserves_elem
               (fun s => Forall (sound maxColumnIndex defaultWidth ds trackedWidths) s.1));
        [|done].
      intros s i Hi%elem_of_seqZ. apply autoRangeStep_sound. lia.
    + destruct (width def) as [w|] eqn:Hw; [|done]. cbn [fst].
      apply Forall_app. split; [done|]. apply Forall_singleton.
      eexists _, _, w. split; [done|]. split; [lia|]. split; [lia|].
      left. by exists def.
Qed.

Lemma fallbackStep_sound maxColumnIndex defaultWidth (ds : list ColumnWidthDefinition)
    trackedWidths st (i : Z) :
  0 <= i <= maxColumnIndex ->
  Forall (sound maxColumnIndex defaultWidth ds trackedWidths) st.1 ->
  Forall (sound maxColumnIndex defaultWidth ds trackedWidths)
    (fallbackStep defaultWidth trackedWidths st i).1.
Proof.
  intros Hi Hst. unfold Writer.fallbackStep.
  case_bool_decide; [done|]. destruct (trackedWidths !! i) as [w|] eqn:E.
  - apply pushColumn_sound; [done| |done]. right. left. by exists i.
  - destruct defaultWidth as [d|]; [|done].
    apply pushColumn_sound; [done| |done]. by right; right.
Qed.

(** X6: when no definition carries a negative column index, every
    declaration is a [col] element for a span [min .. max] of columns
    of the sheet, [1 <= min <= max <= maxColumnIndex + 1], and its
    width is an explicit width of one of the definitions, a tracked
    width or the default width. *)
Theorem colElements_sound (maxColumnIndex : Z) defaultWidth
    (ds : list ColumnWidthDefinition) trackedWidths :
  0 <= maxColumnIndex ->
  (forall def c, def ∈ ds -> columnIndex def = Some c -> 0 <= c) ->
  Forall (sound maxColumnIndex defaultWidth ds trackedWidths)
    (colElements maxColumnIndex defaultWidth (Some ds) trackedWidths).
Proof.
  intros Hmax Hnonneg.
  rewrite colElements_no_spanning_default by lia.
  unfold Writer.afterFallback.
  apply (foldl_preserves_elem
           (fun s => Forall (sound maxColumnIndex defaultWidth ds trackedWidths) s.1)).
  { intros s i Hi%elem_of_seqZ. apply fallbackStep_sound. lia. }
  unfold Writer.afterDefinitions.
  apply (foldl_preserves_elem
           (fun s => Forall (sound maxColumnIndex defaultWidth ds trackedWidths) s.1));
    [|by apply Forall_nil].
  intros s def Hdef. apply processDefinition_sound; [done|].
  intros c. by apply Hnonneg.
Qed.

(** *** Definitions without effect *)

Lemma processDefinition_ineffective maxColumnIndex trackedWidths st def :
  ineffective maxColumnIndex trackedWidths def ->
  processDefinition maxColumnIndex trackedWidths st def = st.
Proof.
  unfold ineffective, Writer.processDefinition, definitionWidth.
  destruct (columnIndex def) as [c|].
  - intros [Hlt| ->]; [|by destruct (_ && _)].
    by rewrite bool_decide_eq_false_2 by lia.
  - destruct (columnRange def) as [r|]; [|done].
    intros [Hempty|[-> ->]].
    + by rewrite bool_decide_eq_false_2 by lia.
    + by case_bool_decide.
Qed.

(** X7: a definition without effect can be dropped from the list: a
    column index beyond the last column or without a width, a range
    that does not meet the columns of the sheet (hence any range with
    [from > to]) or that has neither a width nor auto-detection, and
    a definition with neither index nor range leave the whole width
    block as it is without them, wherever they stand in the list. *)
Theorem generateColsXml_ineffective (maxColumnIndex : Z) defaultWidth trackedWidths
    (before after : list ColumnWidthDefinition) def :
  ineffective maxColumnIndex trackedWidths def ->
  generateColsXml maxColumnIndex defaultWidth (Some (before ++ def :: after)) trackedWidths
  = generateColsXml maxColumnIndex defaultWidth (Some (before ++ after)) trackedWidths.
Proof.
  intros Hdef.
  unfold Writer.generateColsXml, Writer.colElements, Writer.afterFallback,
    Writer.afterDefinitions.
  rewrite !foldl_app. cbn [foldl].
  by rewrite processDefinition_ineffective.
Qed.

(** *** Without definitions *)

(** X8: without definitions (none, or an empty list) the width block
    has one declaration per column of the sheet, in column order: the
    tracked width of the column if there is one, otherwise the default
    width, and no declaration for a column that has neither; with no
    declaration at all, and on a sheet without columns, the block is
    the empty text. *)
Theorem generateColsXml_no_definitions (maxColumnIndex : Z) defaultWidth trackedWidths :
  let declarations :=
    flat_map (columnDecl defaultWidth trackedWidths) (seqZ 0 (maxColumnIndex + 1)) in
  let block :=
    match declarations with
    | [] => ""
    | _ => "<cols>" +:+ nl +:+ join nl declarations +:+ nl +:+ "  </cols>"
    end in
  generateColsXml maxColumnIndex defaultWidth None trackedWidths = block
  /\ generateColsXml maxColumnIndex defaultWidth (Some []) trackedWidths = block.
Proof.
  intros declarations block.
  assert (H : generateColsXml maxColumnIndex defaultWidth None trackedWidths = block).
  { unfold Writer.generateColsXml. case_bool_decide as Hneg.
    - subst block declarations. by rewrite seqZ_nil by lia.
    - rewrite colElements_no_spanning_default by lia.
      unfold Writer.afterFallback, Writer.afterDefinitions.
      destruct (fallbackStep_columns Number_toString defaultWidth trackedWidths
                  (seqZ 0 (maxColumnIndex + 1)) ([], ∅) (NoDup_seqZ _ _)) as [-> _].
      cbn [fst snd app].
      rewrite (flat_map_ext_elem _ (columnDecl defaultWidth trackedWidths)); [done|].
      intros i _. rewrite bool_decide_eq_false_2; [done|apply not_elem_of_empty]. }
  split; [exact H|exact H].
Qed.

(** *** Auto-detected ranges *)

(** X9: a range with auto-detection declares, in column order, each
    column of its part within the sheet that is not processed yet and
    has a tracked width, with that width, and marks these columns as
    processed; an explicit width on the same definition plays no
    part, and columns without a tracked width stay unprocessed. *)
Theorem processDefinition_autoDetect_range (maxColumnIndex : Z) trackedWidths st def
    (r : ColumnRange) :
  columnIndex def = None -> columnRange def = Some r ->
  truthy (autoDetect def) = true ->
  let min := Z.max 0 (from r) in
  let max := Z.min maxColumnIndex (to r) in
  let st' := processDefinition maxColumnIndex trackedWidths st def in
  st'.1 = st.1 ++ flat_map (fun i => if bool_decide (i ∈ st.2) then []
                                     else trackedDecl trackedWidths i)
                     (seqZ min (max - min + 1))
  /\ (forall j, j ∈ st'.2 <->
         j ∈ st.2 \/ (min <= j <= max /\ is_Some (trackedWidths !! j))).
Proof.
  intros Hc Hr Hauto min max st'. subst st'. unfold Writer.processDefinition.
  rewrite Hc, Hr, Hauto. fold min max. case_bool_decide as Hle.
  - destruct (autoRangeStep_columns Number_toString trackedWidths
                (seqZ min (max - min + 1)) st (NoDup_seqZ _ _)) as [H1 H2].
    split; [done|]. intros j. rewrite H2, elem_of_seqZ. intuition lia.
  - rewrite seqZ_nil by lia. simpl. rewrite app_nil_r. split; [done|].
    intros j. intuition lia.
Qed.

(** *** Earlier definitions win *)

Lemma autoRangeStep_processed trackedWidths st (i j : Z) :
  j ∈ st.2 -> j ∈ (autoRangeStep trackedWidths st i).2.
Proof.
  intros Hj. unfold Writer.autoRangeStep. case_bool_decide; [done|].
  destruct (trackedWidths !! i); [|done].
  unfold Writer.pushColumn. cbn [snd]. apply elem_of_union. by right.
Qed.

(** A processed column stays processed. *)
Lemma processDefinition_processed maxColumnIndex trackedWidths st def (j : Z) :
  j ∈ st.2 -> j ∈ (processDefinition maxColumnIndex trackedWidths st def).2.
Proof.
  intros Hj. unfold Writer.processDefinition.
  destruct (columnIndex def) as [i|].
  - destruct (_ && _); [|done].
    destruct (match width def with Some _ => _ | None => _ end); [|done].
    unfold Writer.pushColumn. cbn [snd]. apply elem_of_union. by right.
  - destruct (columnRange def) as [r|]; [|done].
    case_bool_decide; [|done].
    destruct (truthy (autoDetect def)).
    + apply (foldl_preserves (fun s => j ∈ s.2)); [|done].
      intros s i. apply autoRangeStep_processed.
    + destruct (width def); [|done]. cbn [snd]. apply foldl_add_processed. by left.
Qed.

(** X13: the first definition wins over the whole list: once a
    definition with an explicit width for a column index within the
    sheet has been seen, any later definition for the same column
    index is without effect on the width block, whatever it asks for
    and wherever it stands. *)
Theorem generateColsXml_first_definition_wins (maxColumnIndex : Z) defaultWidth
    trackedWidths (before between after : list ColumnWidthDefinition)
    (first later : ColumnWidthDefinition) (c : Z) (w : Number) :
  columnIndex first = Some c -> width first = Some w -> c <= maxColumnIndex ->
  columnIndex later = Some c ->
  generateColsXml maxColumnIndex defaultWidth
    (Some (before ++ first :: between ++ later :: after)) trackedWidths
  = generateColsXml maxColumnIndex defaultWidth
      (Some (before ++ first :: between ++ after)) trackedWidths.
Proof.
  intros Hfirst Hw Hle Hlater.
  unfold Writer.generateColsXml, Writer.colElements, Writer.afterFallback,
    Writer.afterDefinitions.
  rewrite !foldl_app. cbn [foldl]. rewrite !foldl_app. cbn [foldl].
  set (st0 := foldl (processDefinition maxColumnIndex trackedWidths) ([], ∅) before).
  set (st1 := processDefinition maxColumnIndex trackedWidths st0 first).
  assert (H1 : c ∈ st1.2).
  { subst st1. destruct (decide (c ∈ st0.2)) as [Hin|Hnot].
    - by apply processDefinition_processed.
    - rewrite (processDefinition_assign _ _ _ _ _ c w); try done.
      + unfold Writer.pushColumn. cbn [snd]. apply elem_of_union. left.
        by apply elem_of_singleton.
      + unfold definitionWidth. by rewrite Hw. }
  set (st2 := foldl (processDefinition maxColumnIndex trackedWidths) st1 between).
  assert (H2 : c ∈ st2.2).
  { subst st2. apply (foldl_preserves (fun s => c ∈ s.2)); [|done].
    intros s def. apply processDefinition_processed. }
  by rewrite (processDefinition_duplicate _ _ _ st2 later c).
Qed.

End MoreColumns.

(** ** More on [writeSheetXml] *)

Section MorePaths.

Context {Number : Type}.
Variable Number_toString : Number -> string.
Variable resolveCell : @Cell Number -> @CellResolved Number.
Variable escapeXml : @Payload Number -> string.
Variable calculateCellWidth : @Cell Number -> Number.
Variable Number_max : Number -> Number -> Number.

Local Abbreviation serializeRow :=
  (serializeRow Number_toString resolveCell escapeXml calculateCellWidth Number_max).
Local Abbreviation bufferRows := (bufferRows calculateCellWidth Number_max).
Local Abbreviation generateColsXml := (generateColsXml Number_toString).
Local Abbreviation generateSheetFormatPr := (generateSheetFormatPr Number_toString).
Local Abbreviation writeSheetXml :=
  (writeSheetXml Number_toString resolveCell escapeXml calculateCellWidth Number_max).

Lemma bufferRows_max (rows : list Row) (tracking : bool) (acc : list Row) (m : Z)
    (tr : ColumnWidthTracker) :
  (bufferRows rows tracking (acc, m, tr)).1.2
  = foldl (fun m row => Z.max m (Z.of_nat (length (cells row)) - 1)) m rows.
Proof.
  revert acc m tr. induction rows as [|row rest IH]; intros acc m tr; simpl; [done|].
  apply IH.
Qed.

Lemma maxColumnIndexOf_no_cells (rows : list (@Row Number)) :
  Forall (fun row => cells row = []) rows -> maxColumnIndexOf rows = -1.
Proof.
  unfold maxColumnIndexOf. intros H.
  induction H as [|row rest Hrow _ IH]; simpl; [done|]. by rewrite Hrow.
Qed.

Lemma nonEmpty_generateSheetFormatPr (d : Number) :
  nonEmpty (generateSheetFormatPr (Some d)) = true.
Proof. reflexivity. Qed.

(** X10: the order of the fragments, whatever the rows and the
    options: the prolog, then the default-width element exactly when a
    default width is configured, then at most one width block, then
    [<sheetData>], the rows and the closing elements. A width block
    appears only when definitions or global auto-detection are
    configured; it is then the non-empty text of [generateColsXml] for
    the largest [cells.length - 1] of the rows; and it never appears
    when no row has a cell, in particular for an empty sheet. *)
Theorem writeSheetXml_fragments (rows : list Row) (options : option WriteSheetXmlOptions) :
  let g := match options with Some o => getStringIndex o | None => None end in
  let cw := match options with Some o => columnWidthOptions o | None => None end in
  let format :=
    match defaultColumnWidthOf cw with
    | Some d => [generateSheetFormatPr (Some d)]
    | None => []
    end in
  let body := "<sheetData>" :: ((fun row => (serializeRow row g None).1) <$> rows)
                ++ ["</sheetData></worksheet>"] in
  exists cols,
    writeSheetXml rows options = prolog :: format ++ cols ++ body
    /\ (cols = []
        \/ exists trackedWidths,
             cols = [generateColsXml (maxColumnIndexOf rows) (defaultColumnWidthOf cw)
                       (columnWidthsOf cw) trackedWidths]
             /\ cols <> [""])
    /\ (needsColsXml cw = false -> cols = [])
    /\ (Forall (fun row => cells row = []) rows -> cols = []).
Proof.
  intros g cw format body. unfold Writer.writeSheetXml. fold g cw.
  destruct (needsColsXml cw) eqn:Hneeds; simpl negb; cbv iota.
  - unfold Writer.slowPath.
    pose proof (bufferRows_rows calculateCellWidth
                  Number_max rows (needsWidthTracking cw) [] (-1)
                  (newColumnWidthTracker (needsWidthTracking cw))) as Hrows.
    pose proof (bufferRows_max rows (needsWidthTracking cw) [] (-1)
                  (newColumnWidthTracker (needsWidthTracking cw))) as Hmax.
    destruct (bufferRows rows (needsWidthTracking cw)
                ([], -1, newColumnWidthTracker (needsWidthTracking cw)))
      as [[allRows maxColumnIndex] widthTracker].
    simpl in Hrows, Hmax. subst allRows. fold (maxColumnIndexOf rows) in Hmax.
    subst maxColumnIndex.
    rewrite serializeRows_map.
    set (colsXml := generateColsXml (maxColumnIndexOf rows) (defaultColumnWidthOf cw)
                      (columnWidthsOf cw) (getAllWidths widthTracker)).
    exists (if nonEmpty colsXml then [colsXml] else []).
    split; [|split; [|split]].
    + f_equal. subst format body.
      by destruct (defaultColumnWidthOf cw).
    + destruct (nonEmpty colsXml) eqn:E; [right|by left].
      exists (getAllWidths widthTracker). split; [done|].
      intros [= Heq]. by rewrite Heq in E.
    + done.
    + intros Hnone. subst colsXml. rewrite (maxColumnIndexOf_no_cells rows Hnone).
      unfold Writer.generateColsXml. by rewrite bool_decide_eq_true_2 by lia.
  - exists []. unfold Writer.fastPath. rewrite serializeRows_map.
    split; [|split; [by left|done]].
    subst format body. by destruct (defaultColumnWidthOf cw).
Qed.

(** X11: widths are tracked on the slow path only: whenever the
    options ask for width tracking (global auto-detection or a
    definition with auto-detection), they also ask for the width
    block, so the tracker of the fast path is always a disabled one. *)
Theorem needsWidthTracking_needsColsXml (cw : option (@SheetColumnWidthOptions Number)) :
  needsWidthTracking cw = true -> needsColsXml cw = true.
Proof.
  destruct cw as [o|]; [|done]. unfold needsWidthTracking, needsColsXml.
  destruct (autoDetectColumnWidth o) as [[|]|]; simpl;
    try (by rewrite orb_true_r).
  - destruct (columnWidths o) as [[|def ds]|]; simpl; try done.
  - destruct (columnWidths o) as [[|def ds]|]; simpl; try done.
Qed.

End MorePaths.

(** ** The built-in date formats *)

Import FormatCodes.

(** X12: the two tables of built-in date formats agree: the ids
    recognised by [isBuiltInDateFormat] are exactly the integers 14 to
    22, and [getBuiltInFormatCode] returns a format code for exactly
    these ids and [null] for every other id. *)
Theorem builtInDateFormats (id : Z) :
  (isBuiltInDateFormat id = true <-> 14 <= id <= 22)
  /\ (is_Some (getBuiltInFormatCode id) <-> 14 <= id <= 22).
Proof.
  destruct (decide (14 <= id <= 22)) as [Hin|Hout].
  - assert (id = 14 \/ id = 15 \/ id = 16 \/ id = 17 \/ id = 18 \/ id = 19
            \/ id = 20 \/ id = 21 \/ id = 22) as Hid by lia.
    split; split; intros _; try lia.
    + destruct Hid as [->|[->|[->|[->|[->|[->|[->|[->| ->]]]]]]]]; reflexivity.
    + destruct Hid as [->|[->|[->|[->|[->|[->|[->|[->| ->]]]]]]]];
        eexists; reflexivity.
  - assert (Hnot : id ∉ [14; 15; 16; 17; 18; 19; 20; 21; 22]).
    { rewrite !elem_of_cons, elem_of_nil. lia. }
    split; split; try lia.
    + intros Hid. apply bool_decide_eq_true in Hid.
      unfold BUILT_IN_DATE_FORMAT_IDS in Hid. by rewrite elem_of_list_to_set in Hid.
    + unfold getBuiltInFormatCode, formatMap.
      rewrite (not_elem_of_list_to_map_1 _ id); [by intros [? ?]|done].
Qed.

(** ** The further properties at concrete inputs *)

Lemma colElements_cover_witness :
  0 <= 1 <= 2
  /\ covers numToString
       (colElements numToString 2 (Some 9)
          (Some [definitionForRange 0 5 (Some 20) None]) ∅) 1.
Proof.
  assert (H : 0 <= 1 <= 2) by lia. split; [exact H|].
  apply (colElements_cover numToString 2 (Some 9)
           (Some [definitionForRange 0 5 (Some 20) None]) ∅ 1 H).
  right. by eexists.
Defined.

Lemma colElements_sound_witness :
  0 <= 2
  /\ Forall (sound numToString 2 (Some 9)
               [definitionFor 1 (Some 20) None; definitionForRange (-3) 0 None (Some true)]
               {[0 := 5]})
       (colElements numToString 2 (Some 9)
          (Some [definitionFor 1 (Some 20) None; definitionForRange (-3) 0 None (Some true)])
          {[0 := 5]}).
Proof.
  assert (H : 0 <= 2) by lia. split; [exact H|].
  apply (colElements_sound numToString 2 (Some 9)
           [definitionFor 1 (Some 20) None; definitionForRange (-3) 0 None (Some true)]
           {[0 := 5]} H).
  intros def c Hdef Hc. rewrite !elem_of_cons, elem_of_nil in Hdef.
  destruct Hdef as [->|[->|[]]]; simpl in Hc; [injection Hc as <-; lia|discriminate].
Defined.

Lemma generateColsXml_ineffective_witness :
  Sample.generateColsXml 2 (Some 9)
    (Some ([definitionFor 1 (Some 20) None]
           ++ definitionForRange 2 0 (Some 30) None :: [definitionFor 0 (Some 10) None])) ∅
  = Sample.generateColsXml 2 (Some 9)
      (Some ([definitionFor 1 (Some 20) None] ++ [definitionFor 0 (Some 10) None])) ∅.
Proof.
  apply (generateColsXml_ineffective numToString 2 (Some 9) ∅
           [definitionFor 1 (Some 20) None] [definitionFor 0 (Some 10) None]
           (definitionForRange 2 0 (Some 30) None)).
  left. simpl. lia.
Defined.

Lemma processDefinition_autoDetect_range_witness :
  (processDefinition numToString 3 {[0 := 5; 2 := 7]} ([], {[2]})
     (definitionForRange (-1) 2 (Some 30) (Some true))).1
  = [colElement numToString 1 1 5].
Proof.
  etrans.
  - exact (proj1 (processDefinition_autoDetect_range numToString 3 {[0 := 5; 2 := 7]}
                    ([], {[2]}) (definitionForRange (-1) 2 (Some 30) (Some true))
                    {| from := -1; to := 2 |} eq_refl eq_refl eq_refl)).
  - vm_compute. reflexivity.
Defined.

Lemma needsWidthTracking_needsColsXml_witness :
  needsColsXml
    (Some {| autoDetectColumnWidth := None;
             columnWidths := Some [definitionFor 0 None (Some true)];
             defaultColumnWidth := None |}) = true.
Proof.
  apply (needsWidthTracking_needsColsXml
           (Some {| autoDetectColumnWidth := None;
                    columnWidths := Some [definitionFor 0 None (Some true)];
                    defaultColumnWidth := None |})).
  reflexivity.
Defined.

Lemma generateColsXml_first_definition_wins_witness :
  Sample.generateColsXml 2 None
    (Some ([] ++ definitionFor 1 (Some 20) None
              :: [definitionForRange 0 0 (Some 8) None]
              ++ definitionFor 1 (Some 30) None :: [])) ∅
  = Sample.generateColsXml 2 None
      (Some ([] ++ definitionFor 1 (Some 20) None
                :: [definitionForRange 0 0 (Some 8) None] ++ [])) ∅.
Proof.
  apply (generateColsXml_first_definition_wins numToString 2 None ∅ []
           [definitionForRange 0 0 (Some 8) None] []
           (definitionFor 1 (Some 20) None) (definitionFor 1 (Some 30) None) 1 20);
    (reflexivity || lia).
Defined.

(** ** The declaration for a default width alone *)

Section Spanning.

Context {Number : Type}.
Variable Number_toString : Number -> string.

Local Abbreviation colElement := (colElement Number_toString).
Local Abbreviation afterFallback := (afterFallback Number_toString).
Local Abbreviation colElements := (colElements Number_toString).
Local Abbreviation generateColsXml := (generateColsXml Number_toString).
Local Abbreviation finishColElements := (finishColElements Number_toString).

(** [generateColsXml] ends with these two steps. *)
Lemma generateColsXml_tail (maxColumnIndex : Z) (defaultWidth : option Number)
    (defs : option (list ColumnWidthDefinition)) (trackedWidths : gmap Z Number) :
  colElements maxColumnIndex defaultWidth defs trackedWidths
  = finishColElements (afterFallback maxColumnIndex defaultWidth defs trackedWidths).1
      defaultWidth maxColumnIndex
  /\ generateColsXml maxColumnIndex defaultWidth defs trackedWidths
     = if bool_decide (maxColumnIndex < 0) then ""
       else renderCols (colElements maxColumnIndex defaultWidth defs trackedWidths).
Proof. split; reflexivity. Qed.


End Spanning.

